(** * jaxlib/cusolver.py: shape planning, layouts and kernel selection

    A shallow embedding of the six wrappers of [jaxlib/cusolver.py]
    ([trsm], [getrf], [geqrf], [orgqr], [syevd], [gesvd]) and of
    [_real_type], with the properties of their planning logic.

    Python integers are [Z], tuples are lists, the computation builder [c]
    is an explicit log of what the wrapper asked of it, and a raised
    exception is the left injection of the result. *)

From Stdlib Require Import ZArith List String Bool Lia Permutation.
Import ListNotations.
Local Open Scope string_scope.
Local Open Scope Z_scope.

(** ** Element types *)

(** The numpy element types an XLA array shape can carry.  Only four of
    them are handled by [_real_type]. *)
Inductive dtype : Type :=
| np_bool | np_int8 | np_int16 | np_int32 | np_int64
| np_uint8 | np_uint16 | np_uint32 | np_uint64
| np_float16 | np_float32 | np_float64
| np_complex64 | np_complex128.

Scheme Equality for dtype.

(** ** Shapes, as [xla_client.Shape] builds them *)

(** [_Shape.array_shape(element_type, dimensions, minor_to_major)]; a shape
    read back from an operand carries no layout of its own. *)
Record Shape : Type := array_shape {
  element_type : dtype;
  dimensions : list Z;
  minor_to_major : option (list Z)
}.

Definition Opaque : Type := list Byte.byte.

(** ** Exceptions *)

Inductive FormatArg : Type :=
| ArgDtype (d : dtype)
| ArgShape (s : Shape).

(** A message is the format string with the arguments given to [.format]. *)
Inductive Exception : Type :=
| AssertionError
| ValueError (fmt : string) (args : list FormatArg)
| NotImplementedError (fmt : string) (args : list FormatArg)
| IndexError
| XlaRuntimeError.

Definition result (A : Type) : Type := (Exception + A)%type.

(** ** Python built-ins used by the module *)

Module Py.

Definition len {A} (l : list A) : Z := Z.of_nat (List.length l).

(** Clamping of a slice bound to [0 .. len]. *)
Definition clamp {A} (l : list A) (i : Z) : nat :=
  if i <? 0 then Z.to_nat (Z.max 0 (len l + i))
  else Z.to_nat (Z.min i (len l)).

(** [l[i:]] *)
Definition slice_from {A} (l : list A) (i : Z) : list A :=
  skipn (clamp l i) l.

(** [l[:i]] *)
Definition slice_to {A} (l : list A) (i : Z) : list A :=
  firstn (clamp l i) l.

(** [l[i]] *)
Definition index {A} (l : list A) (i : Z) : result A :=
  let j := if i <? 0 then len l + i else i in
  if j <? 0 then inl IndexError
  else match nth_error l (Z.to_nat j) with
       | Some x => inr x
       | None => inl IndexError
       end.

(** [x, y = l]; the message of the error is abridged. *)
Definition unpack2 {A} (l : list A) : result (A * A) :=
  match l with
  | [x; y] => inr (x, y)
  | [] | [_] => inl (ValueError "not enough values to unpack" [])
  | _ => inl (ValueError "too many values to unpack" [])
  end.

(** [tuple(range(start, stop, step))] for a non-zero [step]. *)
Definition range (start stop step : Z) : list Z :=
  let n := if 0 <? step then (stop - start + step - 1) / step
           else (start - stop - step - 1) / (- step) in
  map (fun i => start + Z.of_nat i * step) (seq 0 (Z.to_nat n)).

Fixpoint tuple_eqb (xs ys : list Z) : bool :=
  match xs, ys with
  | [], [] => true
  | x :: xs', y :: ys' => (x =? y) && tuple_eqb xs' ys'
  | _, _ => false
  end.

End Py.

(** ** The computation builder *)

(** The operations the wrappers enqueue on the builder [c], as terms. *)
#[local] Unset Elimination Schemes.
Inductive XlaOp : Type :=
| ParameterOp (number : nat) (shape : Shape)
| CustomCall (call_target_name : string) (operands : list XlaOp)
    (shape_with_layout : list Shape)
    (operand_shapes_with_layout : list Shape) (opaque : Opaque)
| GetTupleElement (tuple : XlaOp) (index : nat)
| Slice (operand : XlaOp) (start_indices limit_indices : list Z).
#[local] Set Elimination Schemes.

(** What a wrapper asks of the descriptor builders of [cublas_kernels] and
    [cusolver_kernels], with the arguments in the order of the call. *)
Inductive DescriptorRequest : Type :=
| build_trsm_batched_descriptor (d : dtype) (batch m n : Z)
    (left_side lower trans_a conj_a diag : bool)
| build_getrf_batched_descriptor (d : dtype) (batch m : Z)
| build_getrf_descriptor (d : dtype) (batch m n : Z)
| build_geqrf_descriptor (d : dtype) (batch m n : Z)
| build_orgqr_descriptor (d : dtype) (batch m n k : Z)
| build_syevj_descriptor (d : dtype) (lower : bool) (batch n : Z)
| build_syevd_descriptor (d : dtype) (lower : bool) (batch n : Z)
| build_gesvd_descriptor (d : dtype) (b m n : Z)
    (compute_uv full_matrices : bool).

(** Everything a wrapper does outside itself, in order. *)
Inductive Event : Type :=
| Consulted (req : DescriptorRequest)
| Enqueued (op : XlaOp).

Definition Trace : Type := list Event.

(** Modelled from the spec: the shape inference of [xla_client]
    ([c.GetShape]) is not in the module.  A parameter has its declared
    shape, element [i] of a custom call has the [i]-th shape of the declared
    result tuple, and a slice keeps the element type and has extent
    [limit - start] on each axis (the truncation to
    [(rows, min(rows, cols))] and [(min(rows, cols), cols)] of the spec).
    A tuple-shaped or ill-formed operation has no array shape. *)
Fixpoint GetShape (op : XlaOp) : option Shape :=
  match op with
  | ParameterOp _ s => Some s
  | CustomCall _ _ _ _ _ => None
  | GetTupleElement t i =>
      match t with
      | CustomCall _ _ results _ _ => nth_error results i
      | _ => None
      end
  | Slice x start limit =>
      match GetShape x with
      | Some s =>
          if (List.length start =? List.length (dimensions s))%nat
             && (List.length limit =? List.length (dimensions s))%nat
             && forallb (fun se => (0 <=? fst se) && (fst se <=? snd se))
                  (combine start limit)
             && forallb (fun ld => fst ld <=? snd ld)
                  (combine limit (dimensions s))
          then Some (array_shape (element_type s)
                       (map (fun se => snd se - fst se) (combine start limit))
                       None)
          else None
      | None => None
      end
  end.

(** ** The monad of a wrapper: a log and an exception *)

Definition M (A : Type) : Type := Trace -> result A * Trace.

Definition ret {A} (x : A) : M A := fun t => (inr x, t).

Definition raise {A} (e : Exception) : M A := fun t => (inl e, t).

Definition bind {A B} (c : M A) (k : A -> M B) : M B :=
  fun t => match c t with
           | (inr x, t') => k x t'
           | (inl e, t') => (inl e, t')
           end.

Definition lift {A} (r : result A) : M A := fun t => (r, t).

Definition emit (e : Event) : M unit := fun t => (inr tt, (t ++ [e])%list).

Notation "x <- c ;; k" := (bind c (fun x => k))
  (at level 61, c at next level, right associativity).
Notation "' pat <- c ;; k" := (bind c (fun x => match x with pat => k end))
  (at level 61, pat pattern, c at next level, right associativity).
Notation "c ;;; k" := (bind c (fun _ => k))
  (at level 61, right associativity).

Definition assert (b : bool) : M unit :=
  if b then ret tt else raise AssertionError.

(** [c.GetShape(a)] *)
Definition c_GetShape (a : XlaOp) : M Shape :=
  match GetShape a with
  | Some s => ret s
  | None => raise XlaRuntimeError
  end.

(** [c.CustomCall(...)], [c.GetTupleElement(...)], [c.Slice(...)]: the
    operation is enqueued and its handle returned. *)
Definition enqueue (op : XlaOp) : M XlaOp := emit (Enqueued op) ;;; ret op.

Definition c_CustomCall (name : string) (operands : list XlaOp)
    (shape_with_layout operand_shapes_with_layout : list Shape)
    (opaque : Opaque) : M XlaOp :=
  enqueue (CustomCall name operands shape_with_layout
             operand_shapes_with_layout opaque).

Definition c_GetTupleElement (t : XlaOp) (i : nat) : M XlaOp :=
  enqueue (GetTupleElement t i).

Definition c_Slice (x : XlaOp) (start limit : list Z) : M XlaOp :=
  enqueue (Slice x start limit).

(** ** [_real_type] *)

(** Returns the real equivalent of [dtype]. *)
Definition _real_type (d : dtype) : result dtype :=
  if dtype_beq d np_float32 then inr np_float32
  else if dtype_beq d np_float64 then inr np_float64
  else if dtype_beq d np_complex64 then inr np_float32
  else if dtype_beq d np_complex128 then inr np_float64
  else inl (NotImplementedError "Unsupported dtype {}" [ArgDtype d]).

(** [_prod = lambda xs: reduce(operator.mul, xs, 1)] *)
Definition _prod (xs : list Z) : Z := fold_left Z.mul xs 1.

(** ** The wrappers *)

Section Wrappers.

(** The descriptor builders are external: given a request they return the
    workspace size and the opaque configuration of the kernel. *)
Variable build : DescriptorRequest -> Z * Opaque.

Definition consult (req : DescriptorRequest) : M (Z * Opaque) :=
  emit (Consulted req) ;;; ret (build req).

(** The layout of a batched matrix,
    [(num_bd, num_bd + 1) + tuple(range(num_bd - 1, -1, -1))]. *)
Definition matrix_layout (num_bd : Z) : list Z :=
  [num_bd; num_bd + 1] ++ Py.range (num_bd - 1) (-1) (-1).

(** Batched triangular solve. *)
Definition trsm (a b : XlaOp) (left_side lower trans_a conj_a diag : bool)
  : M XlaOp :=
  b_shape <- c_GetShape b ;;
  let dtype := element_type b_shape in
  let dims := dimensions b_shape in
  assert (2 <=? Py.len dims) ;;;
  '(m, n) <- lift (Py.unpack2 (Py.slice_from dims (-2))) ;;
  let batch_dims := Py.slice_to dims (-2) in
  let num_bd := Py.len batch_dims in
  let batch := _prod batch_dims in
  let k := if left_side then m else n in
  a_shape <- c_GetShape a ;;
  if negb (Py.tuple_eqb (batch_dims ++ [k; k]) (dimensions a_shape))
     || negb (dtype_beq (element_type a_shape) dtype)
  then raise (ValueError "Argument mismatch for trsm, got {} and {}"
                [ArgShape a_shape; ArgShape b_shape])
  else
  if conj_a && negb trans_a
  then raise (NotImplementedError
                "Conjugation without transposition not supported" [])
  else
  '(lwork, opaque) <- consult (build_trsm_batched_descriptor
                                 dtype batch m n left_side lower trans_a
                                 conj_a diag) ;;
  let layout := matrix_layout num_bd in
  out <- c_CustomCall "cublas_trsm_batched" [a; b]
           [array_shape dtype (dimensions b_shape) (Some layout);
            array_shape np_int8 [lwork] (Some [0]);
            array_shape np_int8 [lwork] (Some [0])]
           [array_shape dtype (dimensions a_shape) (Some layout);
            array_shape dtype (dimensions b_shape) (Some layout)]
           opaque ;;
  c_GetTupleElement out 0.

(** LU decomposition. *)
Definition getrf (a : XlaOp) : M (XlaOp * XlaOp * XlaOp) :=
  a_shape <- c_GetShape a ;;
  let dtype := element_type a_shape in
  let dims := dimensions a_shape in
  assert (2 <=? Py.len dims) ;;;
  '(m, n) <- lift (Py.unpack2 (Py.slice_from dims (-2))) ;;
  let batch_dims := Py.slice_to dims (-2) in
  let num_bd := Py.len batch_dims in
  let batch := _prod batch_dims in
  '(lwork, opaque, workspace, kernel) <-
     (if (1 <? batch) && (m =? n) && (m / batch <=? 128)
      then
        '(lwork, opaque) <- consult (build_getrf_batched_descriptor
                                       dtype batch m) ;;
        ret (lwork, opaque, array_shape np_int8 [lwork] (Some [0]),
             "cublas_getrf_batched")
      else
        '(lwork, opaque) <- consult (build_getrf_descriptor
                                       dtype batch m n) ;;
        ret (lwork, opaque, array_shape dtype [lwork] (Some [0]),
             "cusolver_getrf")) ;;
  out <- c_CustomCall kernel [a]
           [array_shape dtype (batch_dims ++ [m; n])
              (Some (matrix_layout num_bd));
            array_shape np_int32 (batch_dims ++ [Z.min m n])
              (Some (Py.range num_bd (-1) (-1)));
            array_shape np_int32 batch_dims
              (Some (Py.range (num_bd - 1) (-1) (-1)));
            workspace]
           [array_shape dtype (batch_dims ++ [m; n])
              (Some (matrix_layout num_bd))]
           opaque ;;
  e0 <- c_GetTupleElement out 0 ;;
  e1 <- c_GetTupleElement out 1 ;;
  e2 <- c_GetTupleElement out 2 ;;
  ret (e0, e1, e2).

(** QR decomposition. *)
Definition geqrf (a : XlaOp) : M (XlaOp * XlaOp * XlaOp) :=
  a_shape <- c_GetShape a ;;
  let dtype := element_type a_shape in
  let dims := dimensions a_shape in
  assert (2 <=? Py.len dims) ;;;
  '(m, n) <- lift (Py.unpack2 (Py.slice_from dims (-2))) ;;
  let batch_dims := Py.slice_to dims (-2) in
  let num_bd := Py.len batch_dims in
  let batch := _prod batch_dims in
  '(lwork, opaque) <- consult (build_geqrf_descriptor dtype batch m n) ;;
  let workspace := array_shape dtype [lwork] (Some [0]) in
  let kernel := "cusolver_geqrf" in
  out <- c_CustomCall kernel [a]
           [array_shape dtype (batch_dims ++ [m; n])
              (Some (matrix_layout num_bd));
            array_shape dtype (batch_dims ++ [Z.min m n])
              (Some (Py.range num_bd (-1) (-1)));
            array_shape np_int32 batch_dims
              (Some (Py.range (num_bd - 1) (-1) (-1)));
            workspace]
           [array_shape dtype (batch_dims ++ [m; n])
              (Some (matrix_layout num_bd))]
           opaque ;;
  e0 <- c_GetTupleElement out 0 ;;
  e1 <- c_GetTupleElement out 1 ;;
  e2 <- c_GetTupleElement out 2 ;;
  ret (e0, e1, e2).

(** Product of elementary Householder reflections. *)
Definition orgqr (a tau : XlaOp) : M (XlaOp * XlaOp) :=
  a_shape <- c_GetShape a ;;
  let dtype := element_type a_shape in
  let dims := dimensions a_shape in
  assert (2 <=? Py.len dims) ;;;
  '(m, n) <- lift (Py.unpack2 (Py.slice_from dims (-2))) ;;
  let batch_dims := Py.slice_to dims (-2) in
  let num_bd := Py.len batch_dims in
  let batch := _prod batch_dims in
  tau_shape <- c_GetShape tau ;;
  let tau_dims := dimensions tau_shape in
  assert (Py.tuple_eqb (Py.slice_to tau_dims (-1)) (Py.slice_to dims (-2))) ;;;
  k <- lift (Py.index tau_dims (-1)) ;;
  '(lwork, opaque) <- consult (build_orgqr_descriptor dtype batch m n k) ;;
  let workspace := array_shape dtype [lwork] (Some [0]) in
  let kernel := "cusolver_orgqr" in
  out <- c_CustomCall kernel [a; tau]
           [array_shape dtype (batch_dims ++ [m; n])
              (Some (matrix_layout num_bd));
            array_shape np_int32 batch_dims
              (Some (Py.range (num_bd - 1) (-1) (-1)));
            workspace]
           [array_shape dtype (batch_dims ++ [m; n])
              (Some (matrix_layout num_bd));
            array_shape dtype (batch_dims ++ [k])
              (Some (Py.range num_bd (-1) (-1)))]
           opaque ;;
  e0 <- c_GetTupleElement out 0 ;;
  e1 <- c_GetTupleElement out 1 ;;
  ret (e0, e1).

(** Symmetric (Hermitian) eigendecomposition. *)
Definition syevd (a : XlaOp) (lower : bool) : M (XlaOp * XlaOp * XlaOp) :=
  a_shape <- c_GetShape a ;;
  let dtype := element_type a_shape in
  let dims := dimensions a_shape in
  assert (2 <=? Py.len dims) ;;;
  '(m, n) <- lift (Py.unpack2 (Py.slice_from dims (-2))) ;;
  assert (m =? n) ;;;
  let batch_dims := Py.slice_to dims (-2) in
  let num_bd := Py.len batch_dims in
  let batch := _prod batch_dims in
  let layout := matrix_layout num_bd in
  '(kernel, lwork, opaque) <-
     (if n <=? 32
      then
        '(lwork, opaque) <- consult (build_syevj_descriptor
                                       dtype lower batch n) ;;
        ret ("cusolver_syevj", lwork, opaque)
      else
        '(lwork, opaque) <- consult (build_syevd_descriptor
                                       dtype lower batch n) ;;
        ret ("cusolver_syevd", lwork, opaque)) ;;
  eigvals_type <- lift (_real_type dtype) ;;
  out <- c_CustomCall kernel [a]
           [array_shape dtype dims (Some layout);
            array_shape eigvals_type (batch_dims ++ [n])
              (Some (Py.range num_bd (-1) (-1)));
            array_shape np_int32 batch_dims
              (Some (Py.range (num_bd - 1) (-1) (-1)));
            array_shape dtype [lwork] (Some [0])]
           [array_shape dtype dims (Some layout)]
           opaque ;;
  e0 <- c_GetTupleElement out 0 ;;
  e1 <- c_GetTupleElement out 1 ;;
  e2 <- c_GetTupleElement out 2 ;;
  ret (e0, e1, e2).

(** Singular value decomposition.  Returns [(s, u, vt, info)]. *)
Definition gesvd (a : XlaOp) (full_matrices compute_uv : bool)
  : M (XlaOp * XlaOp * XlaOp * XlaOp) :=
  a_shape <- c_GetShape a ;;
  let dtype := element_type a_shape in
  let b := 1 in
  '(m, n) <- lift (Py.unpack2 (dimensions a_shape)) ;;
  singular_vals_dtype <- lift (_real_type dtype) ;;
  '(s, u, vt, info) <-
     (if m <? n
      then
        '(lwork, opaque) <- consult (build_gesvd_descriptor
                                       dtype b n m compute_uv full_matrices) ;;
        out <- c_CustomCall "cusolver_gesvd" [a]
                 [array_shape dtype [m; n] (Some [1; 0]);
                  array_shape singular_vals_dtype [Z.min m n] (Some [0]);
                  array_shape dtype [n; n] (Some [1; 0]);
                  array_shape dtype [m; m] (Some [1; 0]);
                  array_shape np_int32 [] (Some []);
                  array_shape dtype [lwork] (Some [0])]
                 [array_shape dtype [m; n] (Some [1; 0])]
                 opaque ;;
        s <- c_GetTupleElement out 1 ;;
        vt <- c_GetTupleElement out 2 ;;
        u <- c_GetTupleElement out 3 ;;
        info <- c_GetTupleElement out 4 ;;
        ret (s, u, vt, info)
      else
        '(lwork, opaque) <- consult (build_gesvd_descriptor
                                       dtype b m n compute_uv full_matrices) ;;
        out <- c_CustomCall "cusolver_gesvd" [a]
                 [array_shape dtype [m; n] (Some [0; 1]);
                  array_shape singular_vals_dtype [Z.min m n] (Some [0]);
                  array_shape dtype [m; m] (Some [0; 1]);
                  array_shape dtype [n; n] (Some [0; 1]);
                  array_shape np_int32 [] (Some []);
                  array_shape dtype [lwork] (Some [0])]
                 [array_shape dtype [m; n] (Some [0; 1])]
                 opaque ;;
        s <- c_GetTupleElement out 1 ;;
        u <- c_GetTupleElement out 2 ;;
        vt <- c_GetTupleElement out 3 ;;
        info <- c_GetTupleElement out 4 ;;
        ret (s, u, vt, info)) ;;
  if negb full_matrices
  then
    u <- c_Slice u [0; 0] [m; Z.min m n] ;;
    vt <- c_Slice vt [0; 0] [Z.min m n; n] ;;
    ret (s, u, vt, info)
  else ret (s, u, vt, info).

End Wrappers.

(** ** What a log and an operation show *)

Definition target_of (op : XlaOp) : option string :=
  match op with
  | CustomCall name _ _ _ _ => Some name
  | _ => None
  end.

Definition operands_of (op : XlaOp) : list XlaOp :=
  match op with
  | CustomCall _ operands _ _ _ => operands
  | _ => []
  end.

Definition result_shapes (op : XlaOp) : list Shape :=
  match op with
  | CustomCall _ _ results _ _ => results
  | _ => []
  end.

Definition operand_shapes (op : XlaOp) : list Shape :=
  match op with
  | CustomCall _ _ _ shapes _ => shapes
  | _ => []
  end.

Definition opaque_of (op : XlaOp) : Opaque :=
  match op with
  | CustomCall _ _ _ _ opaque => opaque
  | _ => []
  end.

(** The custom calls of a log, in order. *)
Fixpoint issued (t : Trace) : list XlaOp :=
  match t with
  | [] => []
  | Enqueued (CustomCall name ops res shapes opaque) :: t' =>
      CustomCall name ops res shapes opaque :: issued t'
  | _ :: t' => issued t'
  end.

(** The descriptor requests of a log, in order. *)
Fixpoint requests (t : Trace) : list DescriptorRequest :=
  match t with
  | [] => []
  | Consulted r :: t' => r :: requests t'
  | _ :: t' => requests t'
  end.

(** ** The layouts in the words of the specification *)

Module LayoutPlanner.

(** [(N, N+1, N-1, N-2, ..., 0)] *)
Definition matrix (N : nat) : list Z :=
  map Z.of_nat (N :: S N :: rev (seq 0 N)).

(** [(N, N-1, ..., 0)] *)
Definition vector (N : nat) : list Z :=
  map Z.of_nat (N :: rev (seq 0 N)).

(** [(N-1, ..., 0)] *)
Definition scalar (N : nat) : list Z :=
  map Z.of_nat (rev (seq 0 N)).

End LayoutPlanner.

(** The decomposition of a dimension sequence that every wrapper starts
    with: the batch prefix, its product and the two trailing dimensions. *)
Definition BatchSpec : Type := (list Z * Z * (Z * Z))%type.

Definition decompose (dims : list Z) : result BatchSpec :=
  if 2 <=? Py.len dims then
    match Py.unpack2 (Py.slice_from dims (-2)) with
    | inr mn =>
        let batch_dims := Py.slice_to dims (-2) in
        inr (batch_dims, _prod batch_dims, mn)
    | inl e => inl e
    end
  else inl AssertionError.

(** ** Outcomes of a wrapper *)

(** From the log [t] the wrapper returns, and the custom calls it has
    issued are exactly [call]. *)
Definition emits {A} (c : M A) (t : Trace) (call : XlaOp) : Prop :=
  exists r t', c t = (inr r, (t ++ t')%list) /\ issued t' = [call].

(** From the log [t] the wrapper consults the descriptor builders once,
    with the request [req]. *)
Definition consults {A} (c : M A) (t : Trace) (req : DescriptorRequest)
  : Prop :=
  exists t', snd (c t) = (t ++ t')%list /\ requests t' = [req].

(** From the log [t] the wrapper raises [e] and has done nothing: no
    descriptor builder consulted, no operation enqueued. *)
Definition fails {A} (c : M A) (t : Trace) (e : Exception) : Prop :=
  c t = (inl e, t).

(** The kernel [getrf] chooses, as its condition reads. *)
Definition getrf_kernel (bd : list Z) (m n : Z) : string :=
  if (1 <? _prod bd) && (m =? n) && (m / _prod bd <=? 128)
  then "cublas_getrf_batched" else "cusolver_getrf".

(** The kernel [syevd] chooses, as its condition reads. *)
Definition syevd_kernel (n : Z) : string :=
  if n <=? 32 then "cusolver_syevj" else "cusolver_syevd".

(** A builder to run the wrappers on concrete operands: 64 units of
    workspace and an empty configuration for every request. *)
Definition sample_build (req : DescriptorRequest) : Z * Opaque := (64, []).

(** An operand of the enclosing computation with a given shape. *)
Definition sample_operand (d : dtype) (dims : list Z) : XlaOp :=
  ParameterOp 0 (array_shape d dims None).

(** Element type and dimensions of a shape, whatever its layout. *)
Definition typed_dims (s : Shape) : dtype * list Z :=
  (element_type s, dimensions s).

Definition typed_dims_of (op : XlaOp) : option (dtype * list Z) :=
  option_map typed_dims (GetShape op).

(** The dimensions of the result of an operation. *)
Definition dims_of (op : XlaOp) : option (list Z) :=
  option_map dimensions (GetShape op).

(** What a declared tensor is to the call that declares it. *)
Inductive Role : Type :=
| BatchedMatrix | PerBatchVector | PerBatchScalar | Workspace.

(** The layout of the specification for a role, under [N] batch
    dimensions; a workspace is a flat buffer. *)
Definition planned (N : nat) (r : Role) : option (list Z) :=
  Some match r with
       | BatchedMatrix => LayoutPlanner.matrix N
       | PerBatchVector => LayoutPlanner.vector N
       | PerBatchScalar => LayoutPlanner.scalar N
       | Workspace => [0]
       end.

(** The call declares its operands and its results, position by position,
    with the planned layouts of the given roles. *)
Definition declares (call : XlaOp) (N : nat) (operands results : list Role)
  : Prop :=
  map minor_to_major (operand_shapes call) = map (planned N) operands
  /\ map minor_to_major (result_shapes call) = map (planned N) results.

(** The shape the call declares for operand [i] decomposes into [spec]. *)
Definition round_trips (call : XlaOp) (i : nat) (spec : BatchSpec) : Prop :=
  exists s,
    nth_error (operand_shapes call) i = Some s
    /\ decompose (dimensions s) = inr spec.

(** The wrapper returns from the log [t]. *)
Definition accepts {A} (c : M A) (t : Trace) : Prop :=
  exists r t', c t = (inr r, t').

(** From the log [t] the wrapper returns [r], and the custom calls it has
    issued are exactly [call]. *)
Definition returns {A} (c : M A) (t : Trace) (r : A) (call : XlaOp) : Prop :=
  exists t', c t = (inr r, (t ++ t')%list) /\ issued t' = [call].

(** Whatever the log, the wrapper only adds to it, consults the descriptor
    builders at most once, issues no custom call when it raises, and
    issues exactly one, after exactly one consultation, when it returns. *)
Definition atomic {A} (c : M A) : Prop :=
  forall t, exists t',
    snd (c t) = (t ++ t')%list
    /\ match fst (c t) with
       | inl _ => issued t' = [] /\ (List.length (requests t') <= 1)%nat
       | inr _ => exists req call, requests t' = [req] /\ issued t' = [call]
       end.

(** The layout of a shape orders each of its axes exactly once. *)
Definition well_laid (s : Shape) : Prop :=
  exists l,
    minor_to_major s = Some l
    /\ Permutation l (map Z.of_nat (seq 0 (List.length (dimensions s)))).

(** Every shape the call declares, for an operand or a result. *)
Definition declared_shapes (call : XlaOp) : list Shape :=
  (operand_shapes call ++ result_shapes call)%list.

(** From the log [t] the wrapper issues one call, after consulting the
    descriptor builder with [req]; the call carries the opaque
    configuration that the builder returned for [req], and its results at
    the positions [workspaces] are buffers of the size that the builder
    returned. *)
Definition configured (build : DescriptorRequest -> Z * Opaque) {A}
    (c : M A) (t : Trace) (req : DescriptorRequest) (workspaces : list nat)
  : Prop :=
  exists call,
    emits c t call
    /\ consults c t req
    /\ opaque_of call = snd (build req)
    /\ Forall (fun i => option_map dimensions
                          (nth_error (result_shapes call) i)
                        = Some [fst (build req)]) workspaces.

(** A builder whose answer depends on the request, to tell requests
    apart: the workspace is the product of the integer arguments. *)
Definition sizing_build (req : DescriptorRequest) : Z * Opaque :=
  match req with
  | build_trsm_batched_descriptor _ batch m n _ _ _ _ _ =>
      (batch * m * n, [Byte.x01])
  | build_getrf_batched_descriptor _ batch m => (batch * m, [Byte.x02])
  | build_getrf_descriptor _ batch m n => (batch * m * n, [Byte.x03])
  | build_geqrf_descriptor _ batch m n => (batch * m * n, [Byte.x04])
  | build_orgqr_descriptor _ batch m n k => (batch * m * n * k, [Byte.x05])
  | build_syevj_descriptor _ _ batch n => (batch * n, [Byte.x06])
  | build_syevd_descriptor _ _ batch n => (batch * n, [Byte.x07])
  | build_gesvd_descriptor _ b m n _ _ => (b * m * n, [Byte.x08])
  end.

(** * Properties *)

(** ** Python built-ins *)

Lemma len_app {A} (xs ys : list A) :
  Py.len (xs ++ ys) = Py.len xs + Py.len ys.
Proof. unfold Py.len. rewrite length_app. lia. Qed.

Lemma clamp_neg {A} (xs ys : list A) :
  ys <> [] -> Py.clamp (xs ++ ys) (- Py.len ys) = List.length xs.
Proof.
  intros Hys. unfold Py.clamp. rewrite len_app.
  assert (0 < Py.len ys) as Hpos
    by (destruct ys; [contradiction | unfold Py.len; simpl; lia]).
  destruct (- Py.len ys <? 0) eqn:E.
  - unfold Py.len. lia.
  - apply Z.ltb_ge in E. lia.
Qed.

Lemma slice_to_app {A} (xs ys : list A) :
  ys <> [] -> Py.slice_to (xs ++ ys) (- Py.len ys) = xs.
Proof.
  intros Hys. unfold Py.slice_to. rewrite clamp_neg by assumption.
  rewrite firstn_app, Nat.sub_diag, firstn_all. simpl. apply app_nil_r.
Qed.

Lemma slice_from_app {A} (xs ys : list A) :
  ys <> [] -> Py.slice_from (xs ++ ys) (- Py.len ys) = ys.
Proof.
  intros Hys. unfold Py.slice_from. rewrite clamp_neg by assumption.
  rewrite skipn_app, Nat.sub_diag, skipn_all. reflexivity.
Qed.

Lemma slice_to_last2 (bd : list Z) (m n : Z) :
  Py.slice_to (bd ++ [m; n]) (-2) = bd.
Proof. apply (slice_to_app bd [m; n]). discriminate. Qed.

Lemma slice_from_last2 (bd : list Z) (m n : Z) :
  Py.slice_from (bd ++ [m; n]) (-2) = [m; n].
Proof. apply (slice_from_app bd [m; n]). discriminate. Qed.

Lemma slice_to_last1 (bd : list Z) (k : Z) :
  Py.slice_to (bd ++ [k]) (-1) = bd.
Proof. apply (slice_to_app bd [k]). discriminate. Qed.

Lemma index_last (bd : list Z) (k : Z) :
  Py.index (bd ++ [k]) (-1) = inr k.
Proof.
  unfold Py.index. change (-1 <? 0) with true. cbv iota.
  rewrite len_app. unfold Py.len. simpl (List.length [k]).
  replace (Z.of_nat (List.length bd) + Z.of_nat 1 + -1)
    with (Z.of_nat (List.length bd)) by lia.
  destruct (Z.of_nat (List.length bd) <? 0) eqn:E.
  - apply Z.ltb_lt in E. lia.
  - rewrite Nat2Z.id, nth_error_app2, Nat.sub_diag by lia. reflexivity.
Qed.

Lemma len_ge2 (bd : list Z) (m n : Z) :
  (2 <=? Py.len (bd ++ [m; n])) = true.
Proof. rewrite len_app. unfold Py.len. simpl. apply Z.leb_le. lia. Qed.

Lemma tuple_eqb_eq (xs ys : list Z) :
  Py.tuple_eqb xs ys = true <-> xs = ys.
Proof.
  revert ys. induction xs as [| x xs IH]; intros [| y ys]; simpl;
    try (split; [discriminate | discriminate]); try tauto.
  rewrite andb_true_iff, Z.eqb_eq, IH.
  split; [intros [-> ->]; reflexivity | intros [= -> ->]; auto].
Qed.

Lemma tuple_eqb_refl (xs : list Z) : Py.tuple_eqb xs xs = true.
Proof. apply tuple_eqb_eq. reflexivity. Qed.

Lemma tuple_eqb_neq (xs ys : list Z) :
  xs <> ys -> Py.tuple_eqb xs ys = false.
Proof.
  intros H. destruct (Py.tuple_eqb xs ys) eqn:E; [| reflexivity].
  apply tuple_eqb_eq in E. contradiction.
Qed.

Lemma countdown (N : nat) :
  map (fun i => Z.of_nat N - 1 + Z.of_nat i * -1) (seq 0 N)
  = map Z.of_nat (rev (seq 0 N)).
Proof.
  induction N as [| N IH].
  - reflexivity.
  - rewrite seq_S at 2. rewrite rev_app_distr. simpl rev. simpl app.
    cbn [seq map]. rewrite <- seq_shift, map_map. f_equal; [lia |].
    rewrite <- IH. apply map_ext. intros i. lia.
Qed.

(** [range(N - 1, -1, -1)] counts down from [N - 1] to [0]. *)
Lemma range_scalar (N : nat) :
  Py.range (Z.of_nat N - 1) (-1) (-1) = LayoutPlanner.scalar N.
Proof.
  unfold Py.range, LayoutPlanner.scalar. change (0 <? -1) with false.
  cbv iota.
  replace ((Z.of_nat N - 1 - -1 - -1 - 1) / - -1) with (Z.of_nat N)
    by (change (- -1) with 1; rewrite Z.div_1_r; lia).
  rewrite Nat2Z.id. apply countdown.
Qed.

(** [range(N, -1, -1)] counts down from [N] to [0]. *)
Lemma range_vector (N : nat) :
  Py.range (Z.of_nat N) (-1) (-1) = LayoutPlanner.vector N.
Proof.
  replace (Z.of_nat N) with (Z.of_nat (S N) - 1) by lia.
  rewrite range_scalar. unfold LayoutPlanner.scalar, LayoutPlanner.vector.
  rewrite seq_S, rev_app_distr. reflexivity.
Qed.

Ltac step_wrapper :=
  cbv beta iota delta
    [bind ret raise lift emit assert consult enqueue c_CustomCall
     c_GetTupleElement c_Slice Py.unpack2];
  cbn [element_type dimensions].

Ltac start_wrapper H :=
  unfold c_GetShape; rewrite H; step_wrapper;
  rewrite ?len_ge2, ?slice_from_last2, ?slice_to_last2; step_wrapper.

Ltac consult_builder build :=
  repeat match goal with
         | |- context [build ?r] => destruct (build r)
         end;
  step_wrapper; rewrite <- ?app_assoc; cbn [app].

Section WrapperRuns.

Variable build : DescriptorRequest -> Z * Opaque.

Lemma getrf_run a dt bd m n lay t :
  GetShape a = Some (array_shape dt (bd ++ [m; n]) lay) ->
  exists call lwork opaque wdt,
    getrf build a t =
      (inr (GetTupleElement call 0, GetTupleElement call 1,
            GetTupleElement call 2),
       (t ++ [Consulted (if (1 <? _prod bd) && (m =? n)
                            && (m / _prod bd <=? 128)
                         then build_getrf_batched_descriptor dt (_prod bd) m
                         else build_getrf_descriptor dt (_prod bd) m n);
              Enqueued call;
              Enqueued (GetTupleElement call 0);
              Enqueued (GetTupleElement call 1);
              Enqueued (GetTupleElement call 2)])%list)
    /\ call = CustomCall (getrf_kernel bd m n) [a]
         [array_shape dt (bd ++ [m; n]) (Some (matrix_layout (Py.len bd)));
          array_shape np_int32 (bd ++ [Z.min m n])
            (Some (Py.range (Py.len bd) (-1) (-1)));
          array_shape np_int32 bd
            (Some (Py.range (Py.len bd - 1) (-1) (-1)));
          array_shape wdt [lwork] (Some [0])]
         [array_shape dt (bd ++ [m; n]) (Some (matrix_layout (Py.len bd)))]
         opaque.
Proof.
  intros H. unfold getrf, getrf_kernel. start_wrapper H.
  destruct ((1 <? _prod bd) && (m =? n) && (m / _prod bd <=? 128));
    consult_builder build; do 4 eexists; split; reflexivity.
Qed.

Lemma getrf_emits a dt bd m n lay t :
  GetShape a = Some (array_shape dt (bd ++ [m; n]) lay) ->
  exists lwork opaque wdt,
    emits (getrf build a) t
      (CustomCall (getrf_kernel bd m n) [a]
         [array_shape dt (bd ++ [m; n]) (Some (matrix_layout (Py.len bd)));
          array_shape np_int32 (bd ++ [Z.min m n])
            (Some (Py.range (Py.len bd) (-1) (-1)));
          array_shape np_int32 bd
            (Some (Py.range (Py.len bd - 1) (-1) (-1)));
          array_shape wdt [lwork] (Some [0])]
         [array_shape dt (bd ++ [m; n]) (Some (matrix_layout (Py.len bd)))]
         opaque).
Proof.
  intros H. destruct (getrf_run a dt bd m n lay t H)
    as (call & lwork & opaque & wdt & Hrun & ->).
  exists lwork, opaque, wdt. unfold emits. rewrite Hrun.
  do 2 eexists. split; reflexivity.
Qed.

(** The three mutually exclusive outcomes of [trsm] on a right-hand side of
    rank at least two. *)
Lemma trsm_mismatch a b a_shape dt bd (m n : Z) lay
    (left_side lower trans_a conj_a diag : bool) t :
  GetShape b = Some (array_shape dt (bd ++ [m; n]) lay) ->
  GetShape a = Some a_shape ->
  negb (Py.tuple_eqb (bd ++ [if left_side then m else n;
                             if left_side then m else n])
          (dimensions a_shape))
  || negb (dtype_beq (element_type a_shape) dt) = true ->
  trsm build a b left_side lower trans_a conj_a diag t =
    (inl (ValueError "Argument mismatch for trsm, got {} and {}"
            [ArgShape a_shape;
             ArgShape (array_shape dt (bd ++ [m; n]) lay)]), t).
Proof.
  intros Hb Ha Hc. unfold trsm. start_wrapper Hb.
  unfold c_GetShape. rewrite Ha. step_wrapper. rewrite Hc. reflexivity.
Qed.

Lemma trsm_conj a b lay_a dt bd (m n : Z) lay
    (left_side lower diag : bool) t :
  GetShape b = Some (array_shape dt (bd ++ [m; n]) lay) ->
  GetShape a = Some (array_shape dt
                       (bd ++ [if left_side then m else n;
                               if left_side then m else n]) lay_a) ->
  trsm build a b left_side lower false true diag t =
    (inl (NotImplementedError
            "Conjugation without transposition not supported" []), t).
Proof.
  intros Hb Ha. unfold trsm. start_wrapper Hb.
  unfold c_GetShape. rewrite Ha. step_wrapper.
  rewrite tuple_eqb_refl, (internal_dtype_dec_lb dt dt eq_refl).
  reflexivity.
Qed.

Lemma trsm_emits a b lay_a dt bd (m n : Z) lay
    (left_side lower trans_a conj_a diag : bool) t :
  GetShape b = Some (array_shape dt (bd ++ [m; n]) lay) ->
  GetShape a = Some (array_shape dt
                       (bd ++ [if left_side then m else n;
                               if left_side then m else n]) lay_a) ->
  conj_a && negb trans_a = false ->
  exists lwork opaque,
    emits (trsm build a b left_side lower trans_a conj_a diag) t
      (CustomCall "cublas_trsm_batched" [a; b]
         [array_shape dt (bd ++ [m; n]) (Some (matrix_layout (Py.len bd)));
          array_shape np_int8 [lwork] (Some [0]);
          array_shape np_int8 [lwork] (Some [0])]
         [array_shape dt (bd ++ [if left_side then m else n;
                                 if left_side then m else n])
            (Some (matrix_layout (Py.len bd)));
          array_shape dt (bd ++ [m; n]) (Some (matrix_layout (Py.len bd)))]
         opaque).
Proof.
  intros Hb Ha Hc. unfold emits, trsm. start_wrapper Hb.
  unfold c_GetShape. rewrite Ha. step_wrapper.
  rewrite tuple_eqb_refl, (internal_dtype_dec_lb dt dt eq_refl), Hc.
  cbn [negb orb]. consult_builder build.
  do 4 eexists. split; reflexivity.
Qed.

Lemma geqrf_run a dt bd m n lay t :
  GetShape a = Some (array_shape dt (bd ++ [m; n]) lay) ->
  exists call lwork opaque,
    build (build_geqrf_descriptor dt (_prod bd) m n) = (lwork, opaque)
    /\ geqrf build a t =
      (inr (GetTupleElement call 0, GetTupleElement call 1,
            GetTupleElement call 2),
       (t ++ [Consulted (build_geqrf_descriptor dt (_prod bd) m n);
              Enqueued call;
              Enqueued (GetTupleElement call 0);
              Enqueued (GetTupleElement call 1);
              Enqueued (GetTupleElement call 2)])%list)
    /\ call = CustomCall "cusolver_geqrf" [a]
         [array_shape dt (bd ++ [m; n]) (Some (matrix_layout (Py.len bd)));
          array_shape dt (bd ++ [Z.min m n])
            (Some (Py.range (Py.len bd) (-1) (-1)));
          array_shape np_int32 bd
            (Some (Py.range (Py.len bd - 1) (-1) (-1)));
          array_shape dt [lwork] (Some [0])]
         [array_shape dt (bd ++ [m; n]) (Some (matrix_layout (Py.len bd)))]
         opaque.
Proof.
  intros H. unfold geqrf. start_wrapper H. consult_builder build.
  do 3 eexists. repeat split; reflexivity.
Qed.

Lemma geqrf_emits a dt bd m n lay t :
  GetShape a = Some (array_shape dt (bd ++ [m; n]) lay) ->
  exists lwork opaque,
    emits (geqrf build a) t
      (CustomCall "cusolver_geqrf" [a]
         [array_shape dt (bd ++ [m; n]) (Some (matrix_layout (Py.len bd)));
          array_shape dt (bd ++ [Z.min m n])
            (Some (Py.range (Py.len bd) (-1) (-1)));
          array_shape np_int32 bd
            (Some (Py.range (Py.len bd - 1) (-1) (-1)));
          array_shape dt [lwork] (Some [0])]
         [array_shape dt (bd ++ [m; n]) (Some (matrix_layout (Py.len bd)))]
         opaque).
Proof.
  intros H. destruct (geqrf_run a dt bd m n lay t H)
    as (call & lwork & opaque & _ & Hrun & ->).
  exists lwork, opaque. unfold emits. rewrite Hrun.
  do 2 eexists. split; reflexivity.
Qed.

(** [orgqr] stops at its assertion when the leading dimensions of [tau]
    are not the batch dimensions of [a]. *)
Lemma orgqr_assertion a tau tau_shape dt bd m n lay t :
  GetShape a = Some (array_shape dt (bd ++ [m; n]) lay) ->
  GetShape tau = Some tau_shape ->
  Py.slice_to (dimensions tau_shape) (-1) <> bd ->
  orgqr build a tau t = (inl AssertionError, t).
Proof.
  intros Ha Htau Hne. unfold orgqr. start_wrapper Ha.
  unfold c_GetShape. rewrite Htau. step_wrapper.
  rewrite (tuple_eqb_neq _ _ Hne). reflexivity.
Qed.

(** The element type of [tau] plays no part in [orgqr]. *)
Lemma orgqr_emits a tau dt tau_dt bd m n k lay tau_lay t :
  GetShape a = Some (array_shape dt (bd ++ [m; n]) lay) ->
  GetShape tau = Some (array_shape tau_dt (bd ++ [k]) tau_lay) ->
  exists lwork opaque,
    emits (orgqr build a tau) t
      (CustomCall "cusolver_orgqr" [a; tau]
         [array_shape dt (bd ++ [m; n]) (Some (matrix_layout (Py.len bd)));
          array_shape np_int32 bd
            (Some (Py.range (Py.len bd - 1) (-1) (-1)));
          array_shape dt [lwork] (Some [0])]
         [array_shape dt (bd ++ [m; n]) (Some (matrix_layout (Py.len bd)));
          array_shape dt (bd ++ [k])
            (Some (Py.range (Py.len bd) (-1) (-1)))]
         opaque).
Proof.
  intros Ha Htau. unfold emits, orgqr. start_wrapper Ha.
  unfold c_GetShape. rewrite Htau. step_wrapper.
  rewrite slice_to_last1, tuple_eqb_refl, index_last.
  consult_builder build. do 4 eexists. split; reflexivity.
Qed.

Lemma syevd_emits a dt r bd n lay lower t :
  GetShape a = Some (array_shape dt (bd ++ [n; n]) lay) ->
  _real_type dt = inr r ->
  exists lwork opaque,
    emits (syevd build a lower) t
      (CustomCall (syevd_kernel n) [a]
         [array_shape dt (bd ++ [n; n]) (Some (matrix_layout (Py.len bd)));
          array_shape r (bd ++ [n])
            (Some (Py.range (Py.len bd) (-1) (-1)));
          array_shape np_int32 bd
            (Some (Py.range (Py.len bd - 1) (-1) (-1)));
          array_shape dt [lwork] (Some [0])]
         [array_shape dt (bd ++ [n; n]) (Some (matrix_layout (Py.len bd)))]
         opaque).
Proof.
  intros Ha Hr. unfold emits, syevd, syevd_kernel. start_wrapper Ha.
  rewrite Z.eqb_refl, Hr.
  destruct (n <=? 32); consult_builder build;
    do 4 eexists; split; reflexivity.
Qed.

(** The two dispatches of [gesvd]: which descriptor is requested, what the
    call declares, and which tuple elements come back as [u] and [vt]. *)
Lemma gesvd_run a dt r m n lay full_matrices compute_uv t :
  GetShape a = Some (array_shape dt [m; n] lay) ->
  _real_type dt = inr r ->
  exists call lwork opaque t',
    gesvd build a full_matrices compute_uv t =
      (inr (GetTupleElement call 1,
            (if full_matrices
             then GetTupleElement call (if m <? n then 3 else 2)
             else Slice (GetTupleElement call (if m <? n then 3 else 2))
                    [0; 0] [m; Z.min m n]),
            (if full_matrices
             then GetTupleElement call (if m <? n then 2 else 3)
             else Slice (GetTupleElement call (if m <? n then 2 else 3))
                    [0; 0] [Z.min m n; n]),
            GetTupleElement call 4),
       (t ++ t')%list)
    /\ issued t' = [call]
    /\ requests t' =
         [if m <? n
          then build_gesvd_descriptor dt 1 n m compute_uv full_matrices
          else build_gesvd_descriptor dt 1 m n compute_uv full_matrices]
    /\ call = CustomCall "cusolver_gesvd" [a]
         [array_shape dt [m; n] (Some (if m <? n then [1; 0] else [0; 1]));
          array_shape r [Z.min m n] (Some [0]);
          array_shape dt (if m <? n then [n; n] else [m; m])
            (Some (if m <? n then [1; 0] else [0; 1]));
          array_shape dt (if m <? n then [m; m] else [n; n])
            (Some (if m <? n then [1; 0] else [0; 1]));
          array_shape np_int32 [] (Some []);
          array_shape dt [lwork] (Some [0])]
         [array_shape dt [m; n] (Some (if m <? n then [1; 0] else [0; 1]))]
         opaque.
Proof.
  intros Ha Hr. unfold gesvd. start_wrapper Ha. rewrite Hr.
  destruct (m <? n), full_matrices; consult_builder build;
    cbn [negb]; step_wrapper; rewrite <- ?app_assoc; cbn [app];
    do 4 eexists; (split; [reflexivity |]); repeat split; reflexivity.
Qed.

Ltac solve_consults :=
  cbn [snd negb]; step_wrapper; rewrite <- ?app_assoc; cbn [app snd];
  eexists; split; reflexivity.

Lemma trsm_consults a b lay_a dt bd (m n : Z) lay
    (left_side lower trans_a conj_a diag : bool) t :
  GetShape b = Some (array_shape dt (bd ++ [m; n]) lay) ->
  GetShape a = Some (array_shape dt
                       (bd ++ [if left_side then m else n;
                               if left_side then m else n]) lay_a) ->
  conj_a && negb trans_a = false ->
  consults (trsm build a b left_side lower trans_a conj_a diag) t
    (build_trsm_batched_descriptor dt (_prod bd) m n left_side lower
       trans_a conj_a diag).
Proof.
  intros Hb Ha Hc. unfold consults, trsm. start_wrapper Hb.
  unfold c_GetShape. rewrite Ha. step_wrapper.
  rewrite tuple_eqb_refl, (internal_dtype_dec_lb dt dt eq_refl), Hc.
  cbn [negb orb]. consult_builder build. solve_consults.
Qed.

Lemma getrf_consults a dt bd m n lay t :
  GetShape a = Some (array_shape dt (bd ++ [m; n]) lay) ->
  consults (getrf build a) t
    (if (1 <? _prod bd) && (m =? n) && (m / _prod bd <=? 128)
     then build_getrf_batched_descriptor dt (_prod bd) m
     else build_getrf_descriptor dt (_prod bd) m n).
Proof.
  intros H. unfold consults, getrf. start_wrapper H.
  destruct ((1 <? _prod bd) && (m =? n) && (m / _prod bd <=? 128));
    consult_builder build; solve_consults.
Qed.

Lemma geqrf_consults a dt bd m n lay t :
  GetShape a = Some (array_shape dt (bd ++ [m; n]) lay) ->
  consults (geqrf build a) t (build_geqrf_descriptor dt (_prod bd) m n).
Proof.
  intros H. unfold consults, geqrf. start_wrapper H.
  consult_builder build. solve_consults.
Qed.

Lemma orgqr_consults a tau dt tau_dt bd m n k lay tau_lay t :
  GetShape a = Some (array_shape dt (bd ++ [m; n]) lay) ->
  GetShape tau = Some (array_shape tau_dt (bd ++ [k]) tau_lay) ->
  consults (orgqr build a tau) t (build_orgqr_descriptor dt (_prod bd) m n k).
Proof.
  intros Ha Htau. unfold consults, orgqr. start_wrapper Ha.
  unfold c_GetShape. rewrite Htau. step_wrapper.
  rewrite slice_to_last1, tuple_eqb_refl, index_last.
  consult_builder build. solve_consults.
Qed.

Lemma syevd_consults a dt r bd n lay lower t :
  GetShape a = Some (array_shape dt (bd ++ [n; n]) lay) ->
  _real_type dt = inr r ->
  consults (syevd build a lower) t
    (if n <=? 32 then build_syevj_descriptor dt lower (_prod bd) n
     else build_syevd_descriptor dt lower (_prod bd) n).
Proof.
  intros Ha Hr. unfold consults, syevd. start_wrapper Ha.
  rewrite Z.eqb_refl, Hr.
  destruct (n <=? 32); consult_builder build; solve_consults.
Qed.

Lemma gesvd_consults a dt r m n lay full_matrices compute_uv t :
  GetShape a = Some (array_shape dt [m; n] lay) ->
  _real_type dt = inr r ->
  consults (gesvd build a full_matrices compute_uv) t
    (if m <? n
     then build_gesvd_descriptor dt 1 n m compute_uv full_matrices
     else build_gesvd_descriptor dt 1 m n compute_uv full_matrices).
Proof.
  intros Ha Hr.
  destruct (gesvd_run a dt r m n lay full_matrices compute_uv t Ha Hr)
    as (call & lwork & opaque & t' & Hrun & _ & Hreq & _).
  unfold consults. rewrite Hrun. exists t'. split; [reflexivity | exact Hreq].
Qed.

End WrapperRuns.

(** ** Kernel selection *)

Lemma getrf_kernel_cases (bd : list Z) (m n : Z) :
  (1 < _prod bd /\ m = n /\ m / _prod bd <= 128
   /\ getrf_kernel bd m n = "cublas_getrf_batched")
  \/ (~ (1 < _prod bd /\ m = n /\ m / _prod bd <= 128)
      /\ getrf_kernel bd m n = "cusolver_getrf").
Proof.
  unfold getrf_kernel.
  destruct (Z.ltb_spec 1 (_prod bd)); destruct (Z.eqb_spec m n);
    destruct (Z.leb_spec (m / _prod bd) 128); cbn [andb];
    first [left; repeat split; (assumption || reflexivity)
          | right; split; [lia | reflexivity]].
Qed.

(** C1: on a tensor with batch dimensions [bd] (of product [batch_count])
    and trailing matrix dimensions [(m, n)], [getrf] issues one custom call,
    and its target is "cublas_getrf_batched" exactly when
    [batch_count > 1], [m = n] and [m / batch_count <= 128] (the quotient
    being the floor division [//] of the source), and "cusolver_getrf"
    exactly otherwise; batch_count = 4 with a 64 x 64 matrix selects the
    batched kernel, batch_count = 4 with 1024 x 1024 and batch_count = 1 with
    64 x 64 select the general kernel. *)
Theorem getrf_kernel_selection
    (build : DescriptorRequest -> Z * Opaque) (a : XlaOp) (dt : dtype)
    (bd : list Z) (m n : Z) (lay : option (list Z)) (t : Trace) :
  GetShape a = Some (array_shape dt (bd ++ [m; n]) lay) ->
  exists call,
    emits (getrf build a) t call
    /\ (target_of call = Some "cublas_getrf_batched"
        <-> 1 < _prod bd /\ m = n /\ m / _prod bd <= 128)
    /\ (target_of call = Some "cusolver_getrf"
        <-> ~ (1 < _prod bd /\ m = n /\ m / _prod bd <= 128))
    /\ (_prod bd = 4 -> m = 64 -> n = 64 ->
        target_of call = Some "cublas_getrf_batched")
    /\ (_prod bd = 4 -> m = 1024 -> n = 1024 ->
        target_of call = Some "cusolver_getrf")
    /\ (_prod bd = 1 -> m = 64 -> n = 64 ->
        target_of call = Some "cusolver_getrf").
Proof.
  intros H.
  destruct (getrf_emits build a dt bd m n lay t H)
    as (lwork & opaque & wdt & Hemits).
  eexists. split; [exact Hemits |]. cbn [target_of].
  destruct (getrf_kernel_cases bd m n) as [(H1 & H2 & H3 & ->) | (Hn & ->)].
  - repeat split; try tauto; try discriminate.
    + intros Hp Hm Hn. rewrite Hp, Hm in H3.
      change (1024 / 4) with 256 in H3. lia.
    + intros Hp. rewrite Hp in H1. lia.
  - repeat split; try tauto; try discriminate.
    intros Hp Hm Hn'. exfalso. apply Hn. rewrite Hp, Hm, Hn'.
    change (64 / 4) with 16. lia.
Qed.

Lemma getrf_kernel_selection_witness :
  GetShape (sample_operand np_float32 [2; 2; 64; 64])
  = Some (array_shape np_float32 ([2; 2] ++ [64; 64]) None)
  /\ exists call,
       emits (getrf sample_build (sample_operand np_float32 [2; 2; 64; 64]))
         [] call
       /\ target_of call = Some "cublas_getrf_batched".
Proof.
  split; [reflexivity |].
  destruct (getrf_kernel_selection sample_build
              (sample_operand np_float32 [2; 2; 64; 64]) np_float32
              [2; 2] 64 64 None [] eq_refl)
    as (call & Hemits & _ & _ & Hb & _).
  exists call. split; [exact Hemits | apply Hb; reflexivity].
Defined.

(** The threshold of [getrf] is on the floor of the quotient: two 257 x 257
    matrices still go to the batched kernel. *)
Lemma getrf_threshold_floor :
  getrf_kernel [2] 257 257 = "cublas_getrf_batched".
Proof. reflexivity. Qed.

(** C4: on a batch of square matrices of side [n] with a supported element
    type, [syevd] issues one custom call whose target is "cusolver_syevj"
    exactly when [n <= 32] and "cusolver_syevd" otherwise (32 selects the
    Jacobi kernel, 64 the standard one), and the eigenvalue tensor (the
    second of the result tuple) has the element type [_real_type] gives for
    the element type of the input. *)
Theorem syevd_kernel_selection
    (build : DescriptorRequest -> Z * Opaque) (a : XlaOp) (dt r : dtype)
    (bd : list Z) (n : Z) (lay : option (list Z)) (lower : bool)
    (t : Trace) :
  GetShape a = Some (array_shape dt (bd ++ [n; n]) lay) ->
  _real_type dt = inr r ->
  exists call,
    emits (syevd build a lower) t call
    /\ (target_of call = Some "cusolver_syevj" <-> n <= 32)
    /\ (target_of call = Some "cusolver_syevd" <-> 32 < n)
    /\ (n = 32 -> target_of call = Some "cusolver_syevj")
    /\ (n = 64 -> target_of call = Some "cusolver_syevd")
    /\ option_map element_type (nth_error (result_shapes call) 1) = Some r.
Proof.
  intros Ha Hr.
  destruct (syevd_emits build a dt r bd n lay lower t Ha Hr)
    as (lwork & opaque & Hemits).
  eexists. split; [exact Hemits |]. cbn [target_of result_shapes].
  unfold syevd_kernel.
  destruct (Z.leb_spec n 32); repeat split;
    try discriminate; try lia; try reflexivity; intros; try lia.
Qed.

Lemma syevd_kernel_selection_witness :
  GetShape (sample_operand np_complex64 [5; 32; 32])
  = Some (array_shape np_complex64 ([5] ++ [32; 32]) None)
  /\ _real_type np_complex64 = inr np_float32
  /\ exists call,
       emits (syevd sample_build (sample_operand np_complex64 [5; 32; 32])
                false) [] call
       /\ target_of call = Some "cusolver_syevj"
       /\ option_map element_type (nth_error (result_shapes call) 1)
          = Some np_float32.
Proof.
  split; [reflexivity |]. split; [reflexivity |].
  destruct (syevd_kernel_selection sample_build
              (sample_operand np_complex64 [5; 32; 32])
              np_complex64 np_float32
              [5] 32 None false [] eq_refl eq_refl)
    as (call & Hemits & _ & _ & Hj & _ & Hty).
  exists call. repeat split; [exact Hemits | apply Hj; reflexivity | exact Hty].
Defined.

(** ** The element-type classifier *)

(** C7: [_real_type] sends float32 and complex64 to float32, float64 and
    complex128 to float64, raises "Unsupported dtype" on every other element
    type, and applied to one of its own results returns it unchanged. *)
Theorem real_type_classifier :
  _real_type np_float32 = inr np_float32
  /\ _real_type np_float64 = inr np_float64
  /\ _real_type np_complex64 = inr np_float32
  /\ _real_type np_complex128 = inr np_float64
  /\ (forall d : dtype,
        d <> np_float32 -> d <> np_float64 ->
        d <> np_complex64 -> d <> np_complex128 ->
        _real_type d
        = inl (NotImplementedError "Unsupported dtype {}" [ArgDtype d]))
  /\ (forall d r : dtype,
        _real_type d = inr r ->
        (r = np_float32 \/ r = np_float64) /\ _real_type r = inr r).
Proof.
  repeat split; try reflexivity.
  - intros d H1 H2 H3 H4. destruct d; try reflexivity; congruence.
  - destruct d; inversion H; auto.
  - destruct d; inversion H; reflexivity.
Qed.

Lemma real_type_classifier_witness :
  _real_type np_int32
  = inl (NotImplementedError "Unsupported dtype {}" [ArgDtype np_int32])
  /\ _real_type np_complex128 = inr np_float64
  /\ _real_type np_float64 = inr np_float64.
Proof.
  destruct real_type_classifier as (_ & _ & _ & H128 & Hother & Hidem).
  split; [apply Hother; discriminate |].
  split; [exact H128 |].
  apply (Hidem np_complex128 np_float64). reflexivity.
Defined.

(** ** Validation in [trsm] *)

Lemma dtype_beq_neq (d1 d2 : dtype) : d1 <> d2 -> dtype_beq d1 d2 = false.
Proof.
  intros H. destruct (dtype_beq d1 d2) eqn:E; [| reflexivity].
  apply internal_dtype_dec_bl in E. contradiction.
Qed.

(** C5: when the right-hand side [b] has batch dimensions [bd] and trailing
    dimensions [(m, n)], and the dimensions of the triangular operand [a]
    are not [bd] followed by [(k, k)], with [k = m] on the left side and
    [k = n] on the right, or the element types of [a] and [b] differ, [trsm]
    raises the "Argument mismatch" error carrying both shapes, and leaves
    the log as it was: no descriptor builder consulted, no call issued. *)
Theorem trsm_argument_mismatch
    (build : DescriptorRequest -> Z * Opaque) (a b : XlaOp)
    (a_shape : Shape) (dt : dtype) (bd : list Z) (m n : Z)
    (lay : option (list Z)) (left_side lower trans_a conj_a diag : bool)
    (t : Trace) :
  GetShape b = Some (array_shape dt (bd ++ [m; n]) lay) ->
  GetShape a = Some a_shape ->
  dimensions a_shape <> (bd ++ [if left_side then m else n;
                               if left_side then m else n])%list
  \/ element_type a_shape <> dt ->
  fails (trsm build a b left_side lower trans_a conj_a diag) t
    (ValueError "Argument mismatch for trsm, got {} and {}"
       [ArgShape a_shape; ArgShape (array_shape dt (bd ++ [m; n]) lay)])
  /\ issued (snd (trsm build a b left_side lower trans_a conj_a diag t))
     = issued t
  /\ requests (snd (trsm build a b left_side lower trans_a conj_a diag t))
     = requests t.
Proof.
  intros Hb Ha Hne.
  assert (trsm build a b left_side lower trans_a conj_a diag t =
            (inl (ValueError "Argument mismatch for trsm, got {} and {}"
                    [ArgShape a_shape;
                     ArgShape (array_shape dt (bd ++ [m; n]) lay)]), t))
    as Hrun.
  { apply trsm_mismatch; try assumption.
    apply orb_true_iff. destruct Hne as [Hd | Ht].
    - left. rewrite tuple_eqb_neq; [reflexivity | congruence].
    - right. rewrite dtype_beq_neq; [reflexivity | assumption]. }
  unfold fails. rewrite Hrun. repeat split.
Qed.

Lemma trsm_argument_mismatch_witness :
  fails (trsm sample_build (sample_operand np_float32 [3; 4; 4])
           (sample_operand np_float32 [2; 4; 5]) true false false false false)
    []
    (ValueError "Argument mismatch for trsm, got {} and {}"
       [ArgShape (array_shape np_float32 [3; 4; 4] None);
        ArgShape (array_shape np_float32 ([2] ++ [4; 5]) None)]).
Proof.
  apply (trsm_argument_mismatch sample_build
           (sample_operand np_float32 [3; 4; 4])
           (sample_operand np_float32 [2; 4; 5])
           (array_shape np_float32 [3; 4; 4] None) np_float32 [2] 4 5 None
           true false false false false []).
  - reflexivity.
  - reflexivity.
  - left. discriminate.
Defined.

(** The shape check of [trsm] comes before the check of the flags: with
    mismatched operands, conjugation without transposition is not what is
    reported. *)
Lemma trsm_conj_all_requests_counterexample :
  trsm sample_build (sample_operand np_float32 [3; 3])
    (sample_operand np_float32 [2; 2]) false false false true false []
  = (inl (ValueError "Argument mismatch for trsm, got {} and {}"
            [ArgShape (array_shape np_float32 [3; 3] None);
             ArgShape (array_shape np_float32 [2; 2] None)]), [])
  /\ ~ fails (trsm sample_build (sample_operand np_float32 [3; 3])
               (sample_operand np_float32 [2; 2])
               false false false true false)
         []
         (NotImplementedError
            "Conjugation without transposition not supported" []).
Proof.
  split; [reflexivity |]. unfold fails. intros H. vm_compute in H.
  discriminate H.
Qed.

Lemma trsm_never_conj_error_otherwise
    (build : DescriptorRequest -> Z * Opaque) (a b : XlaOp)
    (left_side lower trans_a conj_a diag : bool) (t : Trace) :
  conj_a && negb trans_a = false ->
  fst (trsm build a b left_side lower trans_a conj_a diag t)
  <> inl (NotImplementedError
            "Conjugation without transposition not supported" []).
Proof.
  intros Hc. unfold trsm, c_GetShape.
  destruct (GetShape b) as [b_shape |]; step_wrapper; [| discriminate].
  destruct (2 <=? Py.len (dimensions b_shape)); [| discriminate].
  destruct (Py.slice_from (dimensions b_shape) (-2)) as [| m [| n [| z l]]];
    try discriminate.
  destruct (GetShape a) as [a_shape |]; step_wrapper; [| discriminate].
  destruct (negb _ || negb _); [discriminate |].
  rewrite Hc. consult_builder build. discriminate.
Qed.

(** C6, as the code has it: when the operands of [trsm] pass the shape
    check (the right-hand side has batch dimensions [bd] and trailing
    dimensions [(m, n)], the triangular operand has the same element type
    and dimensions [bd] followed by [(k, k)]), a request with [conj_a] set
    and [trans_a] unset raises "Conjugation without transposition not
    supported" with the log untouched, so before any descriptor builder is
    consulted and with no call issued, and every other combination of the
    two flags issues the call; and whatever the operands, that error is
    never raised for another combination of the flags. *)
Theorem trsm_conj_without_trans
    (build : DescriptorRequest -> Z * Opaque) (a b : XlaOp) (dt : dtype)
    (bd : list Z) (m n : Z) (lay lay_a : option (list Z))
    (left_side lower trans_a conj_a diag : bool) (t : Trace) :
  GetShape b = Some (array_shape dt (bd ++ [m; n]) lay) ->
  GetShape a = Some (array_shape dt
                       (bd ++ [if left_side then m else n;
                               if left_side then m else n]) lay_a) ->
  (conj_a = true /\ trans_a = false ->
   fails (trsm build a b left_side lower trans_a conj_a diag) t
     (NotImplementedError
        "Conjugation without transposition not supported" [])
   /\ requests (snd (trsm build a b left_side lower trans_a conj_a diag t))
      = requests t
   /\ issued (snd (trsm build a b left_side lower trans_a conj_a diag t))
      = issued t)
  /\ (~ (conj_a = true /\ trans_a = false) ->
      exists call,
        emits (trsm build a b left_side lower trans_a conj_a diag) t call
        /\ target_of call = Some "cublas_trsm_batched")
  /\ (forall (a' b' : XlaOp) (t' : Trace),
        ~ (conj_a = true /\ trans_a = false) ->
        fst (trsm build a' b' left_side lower trans_a conj_a diag t')
        <> inl (NotImplementedError
                  "Conjugation without transposition not supported" [])).
Proof.
  intros Hb Ha. split; [| split].
  - intros [-> ->]. unfold fails.
    rewrite (trsm_conj build a b lay_a dt bd m n lay left_side lower diag t
               Hb Ha).
    repeat split.
  - intros Hn.
    destruct (trsm_emits build a b lay_a dt bd m n lay left_side lower
                trans_a conj_a diag t Hb Ha) as (lwork & opaque & Hemits).
    + destruct conj_a, trans_a; try reflexivity. exfalso. auto.
    + eexists. split; [exact Hemits | reflexivity].
  - intros a' b' t' Hn. apply trsm_never_conj_error_otherwise.
    destruct conj_a, trans_a; try reflexivity. exfalso. auto.
Qed.

Lemma trsm_conj_without_trans_witness :
  fails (trsm sample_build (sample_operand np_complex64 [2; 4; 4])
           (sample_operand np_complex64 [2; 4; 5]) true false false true false)
    []
    (NotImplementedError
       "Conjugation without transposition not supported" []).
Proof.
  apply (trsm_conj_without_trans sample_build
           (sample_operand np_complex64 [2; 4; 4])
           (sample_operand np_complex64 [2; 4; 5])
           np_complex64 [2] 4 5 None None true false false true false []
           eq_refl eq_refl).
  split; reflexivity.
Defined.

(** ** Validation in [orgqr] *)

(** A [tau] with the wrong batch prefix stops [orgqr] at a bare assertion,
    not at an error that carries the shapes; and a [tau] of another element
    type is let through, declared with the element type of the matrix. *)
Lemma orgqr_shape_mismatch_counterexample :
  orgqr sample_build (sample_operand np_float32 [2; 4; 3])
    (sample_operand np_float32 [5; 3]) []
  = (inl AssertionError, [])
  /\ (exists call,
        emits (orgqr sample_build (sample_operand np_float32 [2; 4; 3])
                 (sample_operand np_float64 [2; 3])) [] call
        /\ operands_of call = [sample_operand np_float32 [2; 4; 3];
                               sample_operand np_float64 [2; 3]]
        /\ map element_type (operand_shapes call)
           = [np_float32; np_float32]).
Proof.
  split; [reflexivity |].
  destruct (orgqr_emits sample_build (sample_operand np_float32 [2; 4; 3])
              (sample_operand np_float64 [2; 3]) np_float32 np_float64
              [2] 4 3 3 None None [] eq_refl eq_refl)
    as (lwork & opaque & Hemits).
  eexists. split; [exact Hemits |]. split; reflexivity.
Qed.

(** C9, as the code has it: when the matrix [a] has batch dimensions [bd]
    and the dimensions of [tau] are a prefix [bd'] other than [bd] followed
    by one more dimension, [orgqr] stops at its assertion, raising an
    assertion error that carries no message, with the log untouched: no
    descriptor builder consulted and no call issued. *)
Theorem orgqr_prefix_mismatch
    (build : DescriptorRequest -> Z * Opaque) (a tau : XlaOp)
    (dt tau_dt : dtype) (bd bd' : list Z) (m n k : Z)
    (lay tau_lay : option (list Z)) (t : Trace) :
  GetShape a = Some (array_shape dt (bd ++ [m; n]) lay) ->
  GetShape tau = Some (array_shape tau_dt (bd' ++ [k]) tau_lay) ->
  bd' <> bd ->
  fails (orgqr build a tau) t AssertionError
  /\ requests (snd (orgqr build a tau t)) = requests t
  /\ issued (snd (orgqr build a tau t)) = issued t.
Proof.
  intros Ha Htau Hne. unfold fails.
  rewrite (orgqr_assertion build a tau _ dt bd m n lay t Ha Htau)
    by (cbn [dimensions]; rewrite slice_to_last1; exact Hne).
  repeat split.
Qed.

Lemma orgqr_prefix_mismatch_witness :
  fails (orgqr sample_build (sample_operand np_float32 [2; 4; 3])
           (sample_operand np_float32 [5; 3])) [] AssertionError.
Proof.
  apply (orgqr_prefix_mismatch sample_build
           (sample_operand np_float32 [2; 4; 3])
           (sample_operand np_float32 [5; 3])
           np_float32 np_float32 [2] [5] 4 3 3 None None []).
  - reflexivity.
  - reflexivity.
  - discriminate.
Defined.

(** ** Results of [geqrf] *)

(** C10: on a tensor of element type [dt] with batch dimensions [bd] and
    trailing matrix shape [(m, n)], [geqrf] issues one custom call to
    "cusolver_geqrf" whose result tuple declares, in this order, the
    factored matrix of shape [bd + (m, n)] and type [dt], the tau vector of
    shape [bd + (min(m, n),)] and type [dt], the int32 status of shape [bd]
    and the workspace of the size given by the descriptor builder; the
    function returns the first three tuple elements in that order, and the
    fourth, the workspace, is not among them. *)
Theorem geqrf_results
    (build : DescriptorRequest -> Z * Opaque) (a : XlaOp) (dt : dtype)
    (bd : list Z) (m n : Z) (lay : option (list Z)) (t : Trace) :
  GetShape a = Some (array_shape dt (bd ++ [m; n]) lay) ->
  exists call q tau info t',
    geqrf build a t = (inr (q, tau, info), (t ++ t')%list)
    /\ issued t' = [call]
    /\ target_of call = Some "cusolver_geqrf"
    /\ map typed_dims (result_shapes call)
       = [(dt, (bd ++ [m; n])%list); (dt, (bd ++ [Z.min m n])%list);
          (np_int32, bd);
          (dt, [fst (build (build_geqrf_descriptor dt (_prod bd) m n))])]
    /\ q = GetTupleElement call 0
    /\ tau = GetTupleElement call 1
    /\ info = GetTupleElement call 2
    /\ typed_dims_of q = Some (dt, (bd ++ [m; n])%list)
    /\ typed_dims_of tau = Some (dt, (bd ++ [Z.min m n])%list)
    /\ typed_dims_of info = Some (np_int32, bd)
    /\ ~ In (GetTupleElement call 3) [q; tau; info].
Proof.
  intros H.
  destruct (geqrf_run build a dt bd m n lay t H)
    as (call & lwork & opaque & Hb & Hrun & ->).
  rewrite Hrun, Hb. do 5 eexists.
  split; [reflexivity |]. repeat split.
  intros [E | [E | [E | []]]]; discriminate E.
Qed.

Lemma geqrf_results_witness :
  exists call q tau info t',
    geqrf sample_build (sample_operand np_float64 [3; 5; 4]) []
    = (inr (q, tau, info), t')
    /\ issued t' = [call]
    /\ typed_dims_of q = Some (np_float64, [3; 5; 4])
    /\ typed_dims_of tau = Some (np_float64, [3; 4])
    /\ typed_dims_of info = Some (np_int32, [3]).
Proof.
  destruct (geqrf_results sample_build (sample_operand np_float64 [3; 5; 4])
              np_float64 [3] 5 4 None [] eq_refl)
    as (call & q & tau & info & t' & Hrun & Hi & _ & _ & _ & _ & _
        & Hq & Htau & Hinfo & _).
  exists call, q, tau, info, t'. repeat split; assumption.
Defined.

(** ** Results of [gesvd] *)

Lemma leb_true (x y : Z) : x <= y -> (x <=? y) = true.
Proof. apply Z.leb_le. Qed.

(** C3: on a rank-2 operand of shape [(m, n)] with a supported element
    type, [gesvd] issues one custom call.  When [m < n] the descriptor is
    requested for [(n, m)] and [u] and [vt] are read from the tuple
    positions 3 and 2; otherwise the descriptor is requested for [(m, n)]
    and they are read from positions 2 and 3.  Either way the [u] read from
    the tuple has shape [(m, m)] and the [vt] has shape [(n, n)]; with
    [full_matrices] they are returned as they are, and without it they are
    returned sliced to [(m, min(m, n))] and [(min(m, n), n)].  For
    [m = 3], [n = 5] without [full_matrices], [u] has shape [(3, 3)] and
    [vt] has shape [(3, 5)]. *)
Theorem gesvd_shapes
    (build : DescriptorRequest -> Z * Opaque) (a : XlaOp) (dt r : dtype)
    (m n : Z) (lay : option (list Z)) (full_matrices compute_uv : bool)
    (t : Trace) :
  GetShape a = Some (array_shape dt [m; n] lay) ->
  _real_type dt = inr r ->
  0 <= m -> 0 <= n ->
  exists call s u vt info t' u0 vt0,
    gesvd build a full_matrices compute_uv t
    = (inr (s, u, vt, info), (t ++ t')%list)
    /\ issued t' = [call]
    /\ (m < n ->
        requests t'
        = [build_gesvd_descriptor dt 1 n m compute_uv full_matrices]
        /\ vt0 = GetTupleElement call 2 /\ u0 = GetTupleElement call 3)
    /\ (n <= m ->
        requests t'
        = [build_gesvd_descriptor dt 1 m n compute_uv full_matrices]
        /\ u0 = GetTupleElement call 2 /\ vt0 = GetTupleElement call 3)
    /\ dims_of u0 = Some [m; m]
    /\ dims_of vt0 = Some [n; n]
    /\ (full_matrices = true -> u = u0 /\ vt = vt0)
    /\ (full_matrices = false ->
        u = Slice u0 [0; 0] [m; Z.min m n]
        /\ vt = Slice vt0 [0; 0] [Z.min m n; n]
        /\ dims_of u = Some [m; Z.min m n]
        /\ dims_of vt = Some [Z.min m n; n])
    /\ (m = 3 -> n = 5 -> full_matrices = false ->
        dims_of u = Some [3; 3] /\ dims_of vt = Some [3; 5]).
Proof.
  intros Ha Hr Hm Hn.
  destruct (gesvd_run build a dt r m n lay full_matrices compute_uv t Ha Hr)
    as (call & lwork & opaque & t' & Hrun & Hissued & Hreq & ->).
  rewrite Hrun.
  do 6 eexists.
  exists (GetTupleElement
            (CustomCall "cusolver_gesvd" [a]
               [array_shape dt [m; n]
                  (Some (if m <? n then [1; 0] else [0; 1]));
                array_shape r [Z.min m n] (Some [0]);
                array_shape dt (if m <? n then [n; n] else [m; m])
                  (Some (if m <? n then [1; 0] else [0; 1]));
                array_shape dt (if m <? n then [m; m] else [n; n])
                  (Some (if m <? n then [1; 0] else [0; 1]));
                array_shape np_int32 [] (Some []);
                array_shape dt [lwork] (Some [0])]
               [array_shape dt [m; n]
                  (Some (if m <? n then [1; 0] else [0; 1]))]
               opaque) (if m <? n then 3%nat else 2%nat)).
  exists (GetTupleElement
            (CustomCall "cusolver_gesvd" [a]
               [array_shape dt [m; n]
                  (Some (if m <? n then [1; 0] else [0; 1]));
                array_shape r [Z.min m n] (Some [0]);
                array_shape dt (if m <? n then [n; n] else [m; m])
                  (Some (if m <? n then [1; 0] else [0; 1]));
                array_shape dt (if m <? n then [m; m] else [n; n])
                  (Some (if m <? n then [1; 0] else [0; 1]));
                array_shape np_int32 [] (Some []);
                array_shape dt [lwork] (Some [0])]
               [array_shape dt [m; n]
                  (Some (if m <? n then [1; 0] else [0; 1]))]
               opaque) (if m <? n then 2%nat else 3%nat)).
  split; [reflexivity |]. split; [exact Hissued |]. rewrite Hreq.
  assert (forall x y : Z, 0 <= x -> 0 <= y -> 0 <= Z.min x y) as Hmin
    by (intros; lia).
  unfold dims_of.
  destruct (Z.ltb_spec m n) as [Hlt | Hge], full_matrices;
    cbn [GetShape nth_error option_map dimensions element_type List.length
         Nat.eqb combine forallb fst snd andb map];
    rewrite ?Z.leb_refl, ?(leb_true 0 m Hm), ?(leb_true 0 n Hn),
      ?(leb_true 0 (Z.min m n) (Hmin m n Hm Hn)),
      ?(leb_true (Z.min m n) m (Z.le_min_l m n)),
      ?(leb_true (Z.min m n) n (Z.le_min_r m n));
    cbn [andb]; rewrite ?Z.sub_0_r;
    repeat split; try reflexivity; try discriminate; try lia;
    try (subst m n; reflexivity).
Qed.

Lemma gesvd_shapes_witness :
  exists call s u vt info t',
    gesvd sample_build (sample_operand np_complex64 [3; 5]) false true []
    = (inr (s, u, vt, info), t')
    /\ issued t' = [call]
    /\ requests t' = [build_gesvd_descriptor np_complex64 1 5 3 true false]
    /\ dims_of u = Some [3; 3]
    /\ dims_of vt = Some [3; 5].
Proof.
  destruct (gesvd_shapes sample_build (sample_operand np_complex64 [3; 5])
              np_complex64 np_float32 3 5 None false true []
              eq_refl eq_refl)
    as (call & s & u & vt & info & t' & u0 & vt0 & Hrun & Hi & Hlt & _ & _
        & _ & _ & _ & H35); [lia | lia |].
  exists call, s, u, vt, info, t'.
  split; [exact Hrun |]. split; [exact Hi |].
  split; [apply Hlt; lia |]. apply H35; reflexivity.
Defined.

(** ** Layouts *)

Lemma matrix_layout_planned (bd : list Z) :
  matrix_layout (Py.len bd) = LayoutPlanner.matrix (List.length bd).
Proof.
  unfold matrix_layout, Py.len. rewrite range_scalar.
  unfold LayoutPlanner.matrix, LayoutPlanner.scalar. cbn [map app].
  rewrite Nat2Z.inj_succ. reflexivity.
Qed.

Lemma range_vector_planned (bd : list Z) :
  Py.range (Py.len bd) (-1) (-1) = LayoutPlanner.vector (List.length bd).
Proof. apply range_vector. Qed.

Lemma range_scalar_planned (bd : list Z) :
  Py.range (Py.len bd - 1) (-1) (-1)
  = LayoutPlanner.scalar (List.length bd).
Proof. apply range_scalar. Qed.

Ltac planned_layouts :=
  unfold declares, planned;
  cbn [operand_shapes result_shapes map minor_to_major];
  rewrite ?matrix_layout_planned, ?range_vector_planned,
    ?range_scalar_planned;
  split; reflexivity.

Section Layouts.

Variable build : DescriptorRequest -> Z * Opaque.

Lemma trsm_layouts a b lay_a dt bd (m n : Z) lay
    (left_side lower trans_a conj_a diag : bool) t :
  GetShape b = Some (array_shape dt (bd ++ [m; n]) lay) ->
  GetShape a = Some (array_shape dt
                       (bd ++ [if left_side then m else n;
                               if left_side then m else n]) lay_a) ->
  conj_a && negb trans_a = false ->
  exists call,
    emits (trsm build a b left_side lower trans_a conj_a diag) t call
    /\ declares call (List.length bd) [BatchedMatrix; BatchedMatrix]
         [BatchedMatrix; Workspace; Workspace].
Proof.
  intros Hb Ha Hc.
  destruct (trsm_emits build a b lay_a dt bd m n lay left_side lower
              trans_a conj_a diag t Hb Ha Hc) as (lwork & opaque & Hemits).
  eexists. split; [exact Hemits |]. planned_layouts.
Qed.

Lemma getrf_layouts a dt bd m n lay t :
  GetShape a = Some (array_shape dt (bd ++ [m; n]) lay) ->
  exists call,
    emits (getrf build a) t call
    /\ declares call (List.length bd) [BatchedMatrix]
         [BatchedMatrix; PerBatchVector; PerBatchScalar; Workspace].
Proof.
  intros Ha.
  destruct (getrf_emits build a dt bd m n lay t Ha)
    as (lwork & opaque & wdt & Hemits).
  eexists. split; [exact Hemits |]. planned_layouts.
Qed.

Lemma geqrf_layouts a dt bd m n lay t :
  GetShape a = Some (array_shape dt (bd ++ [m; n]) lay) ->
  exists call,
    emits (geqrf build a) t call
    /\ declares call (List.length bd) [BatchedMatrix]
         [BatchedMatrix; PerBatchVector; PerBatchScalar; Workspace].
Proof.
  intros Ha.
  destruct (geqrf_emits build a dt bd m n lay t Ha)
    as (lwork & opaque & Hemits).
  eexists. split; [exact Hemits |]. planned_layouts.
Qed.

Lemma orgqr_layouts a tau dt tau_dt bd m n k lay tau_lay t :
  GetShape a = Some (array_shape dt (bd ++ [m; n]) lay) ->
  GetShape tau = Some (array_shape tau_dt (bd ++ [k]) tau_lay) ->
  exists call,
    emits (orgqr build a tau) t call
    /\ declares call (List.length bd) [BatchedMatrix; PerBatchVector]
         [BatchedMatrix; PerBatchScalar; Workspace].
Proof.
  intros Ha Htau.
  destruct (orgqr_emits build a tau dt tau_dt bd m n k lay tau_lay t
              Ha Htau) as (lwork & opaque & Hemits).
  eexists. split; [exact Hemits |]. planned_layouts.
Qed.

Lemma syevd_layouts a dt r bd n lay lower t :
  GetShape a = Some (array_shape dt (bd ++ [n; n]) lay) ->
  _real_type dt = inr r ->
  exists call,
    emits (syevd build a lower) t call
    /\ declares call (List.length bd) [BatchedMatrix]
         [BatchedMatrix; PerBatchVector; PerBatchScalar; Workspace].
Proof.
  intros Ha Hr.
  destruct (syevd_emits build a dt r bd n lay lower t Ha Hr)
    as (lwork & opaque & Hemits).
  eexists. split; [exact Hemits |]. planned_layouts.
Qed.

Lemma gesvd_emits a dt r m n lay full_matrices compute_uv t :
  GetShape a = Some (array_shape dt [m; n] lay) ->
  _real_type dt = inr r ->
  exists lwork opaque,
    emits (gesvd build a full_matrices compute_uv) t
      (CustomCall "cusolver_gesvd" [a]
         [array_shape dt [m; n] (Some (if m <? n then [1; 0] else [0; 1]));
          array_shape r [Z.min m n] (Some [0]);
          array_shape dt (if m <? n then [n; n] else [m; m])
            (Some (if m <? n then [1; 0] else [0; 1]));
          array_shape dt (if m <? n then [m; m] else [n; n])
            (Some (if m <? n then [1; 0] else [0; 1]));
          array_shape np_int32 [] (Some []);
          array_shape dt [lwork] (Some [0])]
         [array_shape dt [m; n] (Some (if m <? n then [1; 0] else [0; 1]))]
         opaque).
Proof.
  intros Ha Hr.
  destruct (gesvd_run build a dt r m n lay full_matrices compute_uv t Ha Hr)
    as (call & lwork & opaque & t' & Hrun & Hissued & _ & ->).
  exists lwork, opaque. unfold emits. rewrite Hrun.
  do 2 eexists. split; [reflexivity | exact Hissued].
Qed.

Lemma gesvd_layouts a dt r m n lay full_matrices compute_uv t :
  GetShape a = Some (array_shape dt [m; n] lay) ->
  _real_type dt = inr r ->
  exists call,
    emits (gesvd build a full_matrices compute_uv) t call
    /\ (n <= m ->
        declares call 0 [BatchedMatrix]
          [BatchedMatrix; PerBatchVector; BatchedMatrix; BatchedMatrix;
           PerBatchScalar; Workspace])
    /\ (m < n ->
        map minor_to_major (operand_shapes call) = [Some [1; 0]]
        /\ map minor_to_major (result_shapes call)
           = [Some [1; 0]; Some [0]; Some [1; 0]; Some [1; 0]; Some [];
              Some [0]]).
Proof.
  intros Ha Hr.
  destruct (gesvd_emits a dt r m n lay full_matrices compute_uv t Ha Hr)
    as (lwork & opaque & Hemits).
  eexists. split; [exact Hemits |].
  cbn [operand_shapes result_shapes map minor_to_major]. unfold declares.
  cbn [operand_shapes result_shapes map minor_to_major].
  destruct (Z.ltb_spec m n); split; intros; try lia; split; reflexivity.
Qed.

End Layouts.

(** With no batch dimensions the planned layout of a matrix is [(0, 1)];
    on a 3 x 5 operand [gesvd] declares [(1, 0)] for the operand and for
    the three matrices of its result. *)
Lemma gesvd_layout_counterexample :
  exists call,
    emits (gesvd sample_build (sample_operand np_float32 [3; 5]) true true)
      [] call
    /\ LayoutPlanner.matrix 0 = [0; 1]
    /\ map minor_to_major (operand_shapes call) = [Some [1; 0]]
    /\ map minor_to_major (result_shapes call)
       = [Some [1; 0]; Some [0]; Some [1; 0]; Some [1; 0]; Some [];
          Some [0]]
    /\ ~ declares call 0 [BatchedMatrix]
           [BatchedMatrix; PerBatchVector; BatchedMatrix; BatchedMatrix;
            PerBatchScalar; Workspace].
Proof.
  destruct (gesvd_emits sample_build (sample_operand np_float32 [3; 5])
              np_float32 np_float32 3 5 None true true [] eq_refl eq_refl)
    as (lwork & opaque & Hemits).
  eexists. split; [exact Hemits |]. repeat split.
  intros [H _]. discriminate H.
Qed.

(** C2, as the code has it: with [N] batch dimensions, [trsm], [getrf],
    [geqrf], [orgqr] and [syevd] declare the layout [(N, N+1, N-1, ..., 0)]
    for every batched matrix among the operands and results of the call,
    [(N, N-1, ..., 0)] for every per-batch vector and [(N-1, ..., 0)] for
    every per-batch scalar, and so does [gesvd] (where [N = 0]) on an
    operand with at least as many rows as columns; on an operand with
    fewer rows than columns [gesvd] declares [(1, 0)] for its operand and
    for the three matrices of its result, [(0)] for the singular values and
    [()] for the status. *)
Theorem layout_convention (build : DescriptorRequest -> Z * Opaque) :
  (forall a b lay_a dt bd (m n : Z) lay
          (left_side lower trans_a conj_a diag : bool) t,
      GetShape b = Some (array_shape dt (bd ++ [m; n]) lay) ->
      GetShape a = Some (array_shape dt
                           (bd ++ [if left_side then m else n;
                                   if left_side then m else n]) lay_a) ->
      conj_a && negb trans_a = false ->
      exists call,
        emits (trsm build a b left_side lower trans_a conj_a diag) t call
        /\ declares call (List.length bd) [BatchedMatrix; BatchedMatrix]
             [BatchedMatrix; Workspace; Workspace])
  /\ (forall a dt bd m n lay t,
         GetShape a = Some (array_shape dt (bd ++ [m; n]) lay) ->
         exists call,
           emits (getrf build a) t call
           /\ declares call (List.length bd) [BatchedMatrix]
                [BatchedMatrix; PerBatchVector; PerBatchScalar; Workspace])
  /\ (forall a dt bd m n lay t,
         GetShape a = Some (array_shape dt (bd ++ [m; n]) lay) ->
         exists call,
           emits (geqrf build a) t call
           /\ declares call (List.length bd) [BatchedMatrix]
                [BatchedMatrix; PerBatchVector; PerBatchScalar; Workspace])
  /\ (forall a tau dt tau_dt bd m n k lay tau_lay t,
         GetShape a = Some (array_shape dt (bd ++ [m; n]) lay) ->
         GetShape tau = Some (array_shape tau_dt (bd ++ [k]) tau_lay) ->
         exists call,
           emits (orgqr build a tau) t call
           /\ declares call (List.length bd) [BatchedMatrix; PerBatchVector]
                [BatchedMatrix; PerBatchScalar; Workspace])
  /\ (forall a dt r bd n lay lower t,
         GetShape a = Some (array_shape dt (bd ++ [n; n]) lay) ->
         _real_type dt = inr r ->
         exists call,
           emits (syevd build a lower) t call
           /\ declares call (List.length bd) [BatchedMatrix]
                [BatchedMatrix; PerBatchVector; PerBatchScalar; Workspace])
  /\ (forall a dt r m n lay full_matrices compute_uv t,
         GetShape a = Some (array_shape dt [m; n] lay) ->
         _real_type dt = inr r ->
         exists call,
           emits (gesvd build a full_matrices compute_uv) t call
           /\ (n <= m ->
               declares call 0 [BatchedMatrix]
                 [BatchedMatrix; PerBatchVector; BatchedMatrix;
                  BatchedMatrix; PerBatchScalar; Workspace])
           /\ (m < n ->
               map minor_to_major (operand_shapes call) = [Some [1; 0]]
               /\ map minor_to_major (result_shapes call)
                  = [Some [1; 0]; Some [0]; Some [1; 0]; Some [1; 0];
                     Some []; Some [0]])).
Proof.
  split; [exact (trsm_layouts build) |].
  split; [exact (getrf_layouts build) |].
  split; [exact (geqrf_layouts build) |].
  split; [exact (orgqr_layouts build) |].
  split; [exact (syevd_layouts build) |].
  exact (gesvd_layouts build).
Qed.

Lemma layout_convention_witness :
  (exists call,
      emits (orgqr sample_build (sample_operand np_float32 [7; 2; 4; 3])
               (sample_operand np_float32 [7; 2; 3])) [] call
      /\ map minor_to_major (operand_shapes call)
         = [Some [2; 3; 1; 0]; Some [2; 1; 0]]
      /\ map minor_to_major (result_shapes call)
         = [Some [2; 3; 1; 0]; Some [1; 0]; Some [0]])
  /\ (exists call,
         emits (gesvd sample_build (sample_operand np_float32 [5; 3])
                  true true) [] call
         /\ map minor_to_major (operand_shapes call) = [Some [0; 1]]).
Proof.
  destruct (layout_convention sample_build)
    as (_ & _ & _ & Horgqr & _ & Hgesvd).
  split.
  - destruct (Horgqr (sample_operand np_float32 [7; 2; 4; 3])
                (sample_operand np_float32 [7; 2; 3])
                np_float32 np_float32 [7; 2] 4 3 3 None None []
                eq_refl eq_refl) as (call & Hemits & Hops & Hres).
    exists call. split; [exact Hemits |]. split; [exact Hops | exact Hres].
  - destruct (Hgesvd (sample_operand np_float32 [5; 3])
                np_float32 np_float32 5 3 None true true []
                eq_refl eq_refl) as (call & Hemits & Hge & _).
    exists call. split; [exact Hemits |].
    destruct Hge as [Hops _]; [lia | exact Hops].
Defined.

(** ** Round trip of the shape decomposition *)

Lemma decompose_app (bd : list Z) (m n : Z) :
  decompose (bd ++ [m; n]) = inr (bd, _prod bd, (m, n)).
Proof.
  unfold decompose.
  rewrite len_ge2, slice_from_last2, slice_to_last2. reflexivity.
Qed.

(** C8: for every accepted shape configuration of each wrapper, the shape
    that the issued call declares for the primary operand (the right-hand
    side [b] for [trsm], the matrix [a] for the others) splits back, by
    taking off the two trailing dimensions and multiplying the rest, into
    the batch dimensions of the operand that was given, and into the batch
    count and the matrix dimensions that the wrapper computed from it and
    handed to the descriptor builder. *)
Theorem decompose_round_trip (build : DescriptorRequest -> Z * Opaque) :
  (forall a b lay_a dt bd (m n : Z) lay
          (left_side lower trans_a conj_a diag : bool) t,
      GetShape b = Some (array_shape dt (bd ++ [m; n]) lay) ->
      GetShape a = Some (array_shape dt
                           (bd ++ [if left_side then m else n;
                                   if left_side then m else n]) lay_a) ->
      conj_a && negb trans_a = false ->
      exists call,
        emits (trsm build a b left_side lower trans_a conj_a diag) t call
        /\ consults (trsm build a b left_side lower trans_a conj_a diag) t
             (build_trsm_batched_descriptor dt (_prod bd) m n left_side
                lower trans_a conj_a diag)
        /\ round_trips call 1 (bd, _prod bd, (m, n)))
  /\ (forall a dt bd m n lay t,
         GetShape a = Some (array_shape dt (bd ++ [m; n]) lay) ->
         exists call req,
           emits (getrf build a) t call
           /\ consults (getrf build a) t req
           /\ (req = build_getrf_batched_descriptor dt (_prod bd) m /\ m = n
               \/ req = build_getrf_descriptor dt (_prod bd) m n)
           /\ round_trips call 0 (bd, _prod bd, (m, n)))
  /\ (forall a dt bd m n lay t,
         GetShape a = Some (array_shape dt (bd ++ [m; n]) lay) ->
         exists call,
           emits (geqrf build a) t call
           /\ consults (geqrf build a) t
                (build_geqrf_descriptor dt (_prod bd) m n)
           /\ round_trips call 0 (bd, _prod bd, (m, n)))
  /\ (forall a tau dt tau_dt bd m n k lay tau_lay t,
         GetShape a = Some (array_shape dt (bd ++ [m; n]) lay) ->
         GetShape tau = Some (array_shape tau_dt (bd ++ [k]) tau_lay) ->
         exists call,
           emits (orgqr build a tau) t call
           /\ consults (orgqr build a tau) t
                (build_orgqr_descriptor dt (_prod bd) m n k)
           /\ round_trips call 0 (bd, _prod bd, (m, n)))
  /\ (forall a dt r bd n lay lower t,
         GetShape a = Some (array_shape dt (bd ++ [n; n]) lay) ->
         _real_type dt = inr r ->
         exists call req,
           emits (syevd build a lower) t call
           /\ consults (syevd build a lower) t req
           /\ (req = build_syevj_descriptor dt lower (_prod bd) n
               \/ req = build_syevd_descriptor dt lower (_prod bd) n)
           /\ round_trips call 0 (bd, _prod bd, (n, n)))
  /\ (forall a dt r m n lay full_matrices compute_uv t,
         GetShape a = Some (array_shape dt [m; n] lay) ->
         _real_type dt = inr r ->
         exists call req,
           emits (gesvd build a full_matrices compute_uv) t call
           /\ consults (gesvd build a full_matrices compute_uv) t req
           /\ (req = build_gesvd_descriptor dt 1 n m compute_uv
                       full_matrices
               \/ req = build_gesvd_descriptor dt 1 m n compute_uv
                          full_matrices)
           /\ round_trips call 0 ([], 1, (m, n))).
Proof.
  unfold round_trips.
  split; [| split; [| split; [| split; [| split]]]].
  - intros a b lay_a dt bd m n lay left_side lower trans_a conj_a diag t
      Hb Ha Hc.
    destruct (trsm_emits build a b lay_a dt bd m n lay left_side lower
                trans_a conj_a diag t Hb Ha Hc) as (lwork & opaque & Hemits).
    eexists. split; [exact Hemits |].
    split; [exact (trsm_consults build a b lay_a dt bd m n lay left_side
                     lower trans_a conj_a diag t Hb Ha Hc) |].
    eexists. split; [reflexivity | apply decompose_app].
  - intros a dt bd m n lay t Ha.
    destruct (getrf_emits build a dt bd m n lay t Ha)
      as (lwork & opaque & wdt & Hemits).
    do 2 eexists. split; [exact Hemits |].
    split; [apply (getrf_consults build a dt bd m n lay t Ha) |].
    split.
    + destruct (1 <? _prod bd); destruct (Z.eqb_spec m n);
        destruct (m / _prod bd <=? 128); cbn [andb]; auto.
    + eexists. split; [reflexivity | apply decompose_app].
  - intros a dt bd m n lay t Ha.
    destruct (geqrf_emits build a dt bd m n lay t Ha)
      as (lwork & opaque & Hemits).
    eexists. split; [exact Hemits |].
    split; [apply (geqrf_consults build a dt bd m n lay t Ha) |].
    eexists. split; [reflexivity | apply decompose_app].
  - intros a tau dt tau_dt bd m n k lay tau_lay t Ha Htau.
    destruct (orgqr_emits build a tau dt tau_dt bd m n k lay tau_lay t
                Ha Htau) as (lwork & opaque & Hemits).
    eexists. split; [exact Hemits |].
    split; [apply (orgqr_consults build a tau dt tau_dt bd m n k lay tau_lay
                     t Ha Htau) |].
    eexists. split; [reflexivity | apply decompose_app].
  - intros a dt r bd n lay lower t Ha Hr.
    destruct (syevd_emits build a dt r bd n lay lower t Ha Hr)
      as (lwork & opaque & Hemits).
    do 2 eexists. split; [exact Hemits |].
    split; [apply (syevd_consults build a dt r bd n lay lower t Ha Hr) |].
    split; [destruct (n <=? 32); auto |].
    eexists. split; [reflexivity | apply decompose_app].
  - intros a dt r m n lay full_matrices compute_uv t Ha Hr.
    destruct (gesvd_emits build a dt r m n lay full_matrices compute_uv t
                Ha Hr) as (lwork & opaque & Hemits).
    do 2 eexists. split; [exact Hemits |].
    split; [apply (gesvd_consults build a dt r m n lay full_matrices
                     compute_uv t Ha Hr) |].
    split; [destruct (m <? n); auto |].
    eexists. split; [reflexivity | apply (decompose_app [] m n)].
Qed.

Lemma decompose_round_trip_witness :
  exists call,
    emits (trsm sample_build (sample_operand np_float64 [2; 3; 4; 4])
             (sample_operand np_float64 [2; 3; 4; 5])
             true true false false false) [] call
    /\ consults (trsm sample_build (sample_operand np_float64 [2; 3; 4; 4])
                   (sample_operand np_float64 [2; 3; 4; 5])
                   true true false false false) []
         (build_trsm_batched_descriptor np_float64 6 4 5
            true true false false false)
    /\ round_trips call 1 ([2; 3], 6, (4, 5)).
Proof.
  destruct (decompose_round_trip sample_build) as (Htrsm & _).
  exact (Htrsm (sample_operand np_float64 [2; 3; 4; 4])
           (sample_operand np_float64 [2; 3; 4; 5])
           None np_float64 [2; 3] 4 5 None true true false false false []
           eq_refl eq_refl eq_refl).
Defined.

(** * Further properties of the wrappers *)

(** ** Logs and dimension sequences *)

Lemma issued_app (t t' : Trace) :
  issued (t ++ t')%list = (issued t ++ issued t')%list.
Proof.
  induction t as [| e t IH]; [reflexivity |].
  destruct e as [r | op]; [exact IH |].
  destruct op; cbn [app issued]; rewrite ?IH; reflexivity.
Qed.

Lemma requests_app (t t' : Trace) :
  requests (t ++ t')%list = (requests t ++ requests t')%list.
Proof.
  induction t as [| e t IH]; [reflexivity |].
  destruct e as [r | op]; cbn [app requests]; rewrite IH; reflexivity.
Qed.

Lemma short_rank (dims : list Z) :
  (List.length dims < 2)%nat -> (2 <=? Py.len dims) = false.
Proof. intros H. apply Z.leb_gt. unfold Py.len. lia. Qed.

(** A sequence of at least two dimensions is a batch prefix followed by two
    matrix dimensions. *)
Lemma dims_split2 (dims : list Z) :
  (2 <= List.length dims)%nat -> exists bd m n, dims = (bd ++ [m; n])%list.
Proof.
  intros H.
  destruct (exists_last (l := dims)) as (l1 & n & ->);
    [intros ->; simpl in H; lia |].
  destruct (exists_last (l := l1)) as (bd & m & ->).
  - intros ->. simpl in H. lia.
  - exists bd, m, n. rewrite <- app_assoc. reflexivity.
Qed.

(** ** Rejected operands *)

Section Rejections.

Variable build : DescriptorRequest -> Z * Opaque.

Ltac reject_rank H Hlen :=
  unfold c_GetShape; rewrite H; step_wrapper;
  rewrite (short_rank _ Hlen); reflexivity.

Lemma trsm_rank_fails a b s
    (left_side lower trans_a conj_a diag : bool) t :
  GetShape b = Some s -> (List.length (dimensions s) < 2)%nat ->
  trsm build a b left_side lower trans_a conj_a diag t
  = (inl AssertionError, t).
Proof. intros H Hlen. unfold trsm. reject_rank H Hlen. Qed.

Lemma getrf_rank_fails a s t :
  GetShape a = Some s -> (List.length (dimensions s) < 2)%nat ->
  getrf build a t = (inl AssertionError, t).
Proof. intros H Hlen. unfold getrf. reject_rank H Hlen. Qed.

Lemma geqrf_rank_fails a s t :
  GetShape a = Some s -> (List.length (dimensions s) < 2)%nat ->
  geqrf build a t = (inl AssertionError, t).
Proof. intros H Hlen. unfold geqrf. reject_rank H Hlen. Qed.

Lemma orgqr_rank_fails a tau s t :
  GetShape a = Some s -> (List.length (dimensions s) < 2)%nat ->
  orgqr build a tau t = (inl AssertionError, t).
Proof. intros H Hlen. unfold orgqr. reject_rank H Hlen. Qed.

Lemma syevd_rank_fails a s lower t :
  GetShape a = Some s -> (List.length (dimensions s) < 2)%nat ->
  syevd build a lower t = (inl AssertionError, t).
Proof. intros H Hlen. unfold syevd. reject_rank H Hlen. Qed.

Lemma gesvd_rank_fails a s full_matrices compute_uv t :
  GetShape a = Some s -> List.length (dimensions s) <> 2%nat ->
  exists msg,
    gesvd build a full_matrices compute_uv t = (inl (ValueError msg []), t).
Proof.
  intros H Hlen. unfold gesvd, c_GetShape. rewrite H. step_wrapper.
  destruct (dimensions s) as [| x [| y [| z l]]];
    try (eexists; reflexivity).
  exfalso. apply Hlen. reflexivity.
Qed.

Lemma syevd_nonsquare_fails a dt bd m n lay lower t :
  GetShape a = Some (array_shape dt (bd ++ [m; n]) lay) -> m <> n ->
  syevd build a lower t = (inl AssertionError, t).
Proof.
  intros H Hne. unfold syevd. start_wrapper H.
  destruct (Z.eqb_spec m n); [contradiction | reflexivity].
Qed.

Lemma syevd_unsupported a dt e bd n lay lower t :
  GetShape a = Some (array_shape dt (bd ++ [n; n]) lay) ->
  _real_type dt = inl e ->
  syevd build a lower t
  = (inl e,
     (t ++ [Consulted
              (if n <=? 32
               then build_syevj_descriptor dt lower (_prod bd) n
               else build_syevd_descriptor dt lower (_prod bd) n)])%list).
Proof.
  intros H He. unfold syevd. start_wrapper H. rewrite Z.eqb_refl, He.
  destruct (n <=? 32); consult_builder build; reflexivity.
Qed.

Lemma gesvd_unsupported a dt e m n lay full_matrices compute_uv t :
  GetShape a = Some (array_shape dt [m; n] lay) ->
  _real_type dt = inl e ->
  gesvd build a full_matrices compute_uv t = (inl e, t).
Proof.
  intros H He. unfold gesvd. start_wrapper H. rewrite He. reflexivity.
Qed.

Lemma orgqr_scalar_tau_fails a tau dt tau_dt m n lay tau_lay t :
  GetShape a = Some (array_shape dt [m; n] lay) ->
  GetShape tau = Some (array_shape tau_dt [] tau_lay) ->
  orgqr build a tau t = (inl IndexError, t).
Proof.
  intros Ha Htau. unfold orgqr.
  unfold c_GetShape. rewrite Ha. step_wrapper.
  change [m; n] with ([] ++ [m; n])%list.
  rewrite ?len_ge2, ?slice_from_last2, ?slice_to_last2. step_wrapper.
  rewrite Htau. step_wrapper. reflexivity.
Qed.

Lemma real_type_error (d : dtype) (e : Exception) :
  _real_type d = inl e ->
  e = NotImplementedError "Unsupported dtype {}" [ArgDtype d].
Proof. destruct d; intros H; inversion H; reflexivity. Qed.

End Rejections.

(** X1: an operand of rank below two stops [getrf], [geqrf], [orgqr],
    [syevd] and [trsm] (where it is the right-hand side) at their first
    assertion, whatever the other arguments are, and nothing has been
    consulted or enqueued by then. *)
Theorem rank_below_two_rejected
    (build : DescriptorRequest -> Z * Opaque) (a : XlaOp) (s : Shape)
    (t : Trace) :
  GetShape a = Some s ->
  (List.length (dimensions s) < 2)%nat ->
  fails (getrf build a) t AssertionError
  /\ fails (geqrf build a) t AssertionError
  /\ (forall tau, fails (orgqr build a tau) t AssertionError)
  /\ (forall lower, fails (syevd build a lower) t AssertionError)
  /\ (forall a' left_side lower trans_a conj_a diag,
         fails (trsm build a' a left_side lower trans_a conj_a diag) t
           AssertionError).
Proof.
  intros H Hlen. unfold fails. repeat split; intros.
  - exact (getrf_rank_fails build a s t H Hlen).
  - exact (geqrf_rank_fails build a s t H Hlen).
  - exact (orgqr_rank_fails build a tau s t H Hlen).
  - exact (syevd_rank_fails build a s lower t H Hlen).
  - exact (trsm_rank_fails build a' a s left_side lower trans_a conj_a diag
             t H Hlen).
Qed.

Lemma rank_below_two_rejected_witness :
  fails (getrf sample_build (sample_operand np_float32 [7])) []
    AssertionError
  /\ fails (trsm sample_build (sample_operand np_float32 [7; 7])
              (sample_operand np_float32 [7]) true false false true false)
       [] AssertionError.
Proof.
  destruct (rank_below_two_rejected sample_build
              (sample_operand np_float32 [7])
              (array_shape np_float32 [7] None) [] eq_refl)
    as (Hgetrf & _ & _ & _ & Htrsm); [simpl; lia |].
  split; [exact Hgetrf | apply Htrsm].
Defined.

(** X2: [gesvd] takes one matrix only: on an operand whose rank is not
    two, a batch of matrices included, unpacking its dimensions raises a
    [ValueError] before anything is consulted or enqueued. *)
Theorem gesvd_rank_not_two_rejected
    (build : DescriptorRequest -> Z * Opaque) (a : XlaOp) (s : Shape)
    (full_matrices compute_uv : bool) (t : Trace) :
  GetShape a = Some s ->
  List.length (dimensions s) <> 2%nat ->
  exists msg,
    fails (gesvd build a full_matrices compute_uv) t (ValueError msg []).
Proof.
  intros H Hlen. unfold fails.
  exact (gesvd_rank_fails build a s full_matrices compute_uv t H Hlen).
Qed.

Lemma gesvd_rank_not_two_rejected_witness :
  exists msg,
    fails (gesvd sample_build (sample_operand np_float32 [4; 3; 3])
             true true) [] (ValueError msg []).
Proof.
  apply (gesvd_rank_not_two_rejected sample_build
           (sample_operand np_float32 [4; 3; 3])
           (array_shape np_float32 [4; 3; 3] None) true true []).
  - reflexivity.
  - discriminate.
Defined.

(** X3: on matrices that are not square [syevd] stops at its assertion
    [m == n], with nothing consulted or enqueued. *)
Theorem syevd_nonsquare_rejected
    (build : DescriptorRequest -> Z * Opaque) (a : XlaOp) (dt : dtype)
    (bd : list Z) (m n : Z) (lay : option (list Z)) (lower : bool)
    (t : Trace) :
  GetShape a = Some (array_shape dt (bd ++ [m; n]) lay) ->
  m <> n ->
  fails (syevd build a lower) t AssertionError.
Proof.
  intros H Hne. unfold fails.
  exact (syevd_nonsquare_fails build a dt bd m n lay lower t H Hne).
Qed.

Lemma syevd_nonsquare_rejected_witness :
  fails (syevd sample_build (sample_operand np_float32 [2; 4; 3]) false) []
    AssertionError.
Proof.
  apply (syevd_nonsquare_rejected sample_build
           (sample_operand np_float32 [2; 4; 3]) np_float32 [2] 4 3 None
           false [] eq_refl).
  discriminate.
Defined.

(** X4: on square matrices of an element type that [_real_type] does not
    handle, [syevd] raises "Unsupported dtype" only after the descriptor
    builder of the chosen kernel has been consulted with that element type;
    no operation is enqueued. *)
Theorem syevd_unsupported_dtype
    (build : DescriptorRequest -> Z * Opaque) (a : XlaOp) (dt : dtype)
    (e : Exception) (bd : list Z) (n : Z) (lay : option (list Z))
    (lower : bool) (t : Trace) :
  GetShape a = Some (array_shape dt (bd ++ [n; n]) lay) ->
  _real_type dt = inl e ->
  fst (syevd build a lower t)
  = inl (NotImplementedError "Unsupported dtype {}" [ArgDtype dt])
  /\ consults (syevd build a lower) t
       (if n <=? 32 then build_syevj_descriptor dt lower (_prod bd) n
        else build_syevd_descriptor dt lower (_prod bd) n)
  /\ issued (snd (syevd build a lower t)) = issued t.
Proof.
  intros H He. unfold consults.
  rewrite (syevd_unsupported build a dt e bd n lay lower t H He).
  cbn [fst snd]. rewrite (real_type_error dt e He).
  split; [reflexivity |]. split.
  - eexists. split; reflexivity.
  - rewrite issued_app. apply app_nil_r.
Qed.

Lemma syevd_unsupported_dtype_witness :
  fst (syevd sample_build (sample_operand np_int32 [3; 3]) false [])
  = inl (NotImplementedError "Unsupported dtype {}" [ArgDtype np_int32])
  /\ consults (syevd sample_build (sample_operand np_int32 [3; 3]) false) []
       (build_syevj_descriptor np_int32 false 1 3).
Proof.
  destruct (syevd_unsupported_dtype sample_build
              (sample_operand np_int32 [3; 3]) np_int32
              (NotImplementedError "Unsupported dtype {}" [ArgDtype np_int32])
              [] 3 None false [] eq_refl eq_refl) as (Herr & Hreq & _).
  split; [exact Herr | exact Hreq].
Defined.

(** X5: on a matrix of an element type that [_real_type] does not handle,
    [gesvd] raises "Unsupported dtype" before anything is consulted or
    enqueued. *)
Theorem gesvd_unsupported_dtype
    (build : DescriptorRequest -> Z * Opaque) (a : XlaOp) (dt : dtype)
    (e : Exception) (m n : Z) (lay : option (list Z))
    (full_matrices compute_uv : bool) (t : Trace) :
  GetShape a = Some (array_shape dt [m; n] lay) ->
  _real_type dt = inl e ->
  fails (gesvd build a full_matrices compute_uv) t
    (NotImplementedError "Unsupported dtype {}" [ArgDtype dt]).
Proof.
  intros H He. unfold fails.
  rewrite (gesvd_unsupported build a dt e m n lay full_matrices compute_uv
             t H He).
  rewrite (real_type_error dt e He). reflexivity.
Qed.

Lemma gesvd_unsupported_dtype_witness :
  fails (gesvd sample_build (sample_operand np_float16 [4; 3]) true true) []
    (NotImplementedError "Unsupported dtype {}" [ArgDtype np_float16]).
Proof.
  apply (gesvd_unsupported_dtype sample_build
           (sample_operand np_float16 [4; 3]) np_float16
           (NotImplementedError "Unsupported dtype {}" [ArgDtype np_float16])
           4 3 None true true [] eq_refl eq_refl).
Defined.

(** X6: with an unbatched matrix and a [tau] of rank zero the assertion of
    [orgqr] on the batch prefixes passes, both being empty, and reading the
    last dimension of [tau] raises [IndexError], with nothing consulted or
    enqueued. *)
Theorem orgqr_scalar_tau_rejected
    (build : DescriptorRequest -> Z * Opaque) (a tau : XlaOp)
    (dt tau_dt : dtype) (m n : Z) (lay tau_lay : option (list Z))
    (t : Trace) :
  GetShape a = Some (array_shape dt [m; n] lay) ->
  GetShape tau = Some (array_shape tau_dt [] tau_lay) ->
  fails (orgqr build a tau) t IndexError.
Proof.
  intros Ha Htau. unfold fails.
  exact (orgqr_scalar_tau_fails build a tau dt tau_dt m n lay tau_lay t
           Ha Htau).
Qed.

Lemma orgqr_scalar_tau_rejected_witness :
  fails (orgqr sample_build (sample_operand np_float32 [4; 3])
           (sample_operand np_float32 [])) [] IndexError.
Proof.
  apply (orgqr_scalar_tau_rejected sample_build
           (sample_operand np_float32 [4; 3]) (sample_operand np_float32 [])
           np_float32 np_float32 4 3 None None [] eq_refl eq_refl).
Defined.

(** ** No partial emission *)

Ltac stop_atomic :=
  exists []; cbn [fst snd];
  split; [symmetry; apply app_nil_r | split; [reflexivity | simpl; lia]].

Ltac run_atomic :=
  cbn [negb]; step_wrapper; rewrite <- ?app_assoc; cbn [app fst snd];
  eexists; split; [reflexivity | do 2 eexists; split; reflexivity].

Section Atomicity.

Variable build : DescriptorRequest -> Z * Opaque.

Lemma trsm_atomic a b (left_side lower trans_a conj_a diag : bool) :
  atomic (trsm build a b left_side lower trans_a conj_a diag).
Proof.
  intros t. unfold trsm, c_GetShape.
  destruct (GetShape b) as [b_shape |]; step_wrapper; [| stop_atomic].
  destruct (2 <=? Py.len (dimensions b_shape)); [| stop_atomic].
  destruct (Py.slice_from (dimensions b_shape) (-2))
    as [| m [| n [| z l]]]; try stop_atomic.
  destruct (GetShape a) as [a_shape |]; step_wrapper; [| stop_atomic].
  destruct (negb _ || negb _); [stop_atomic |].
  destruct (conj_a && negb trans_a); [stop_atomic |].
  consult_builder build. run_atomic.
Qed.

Lemma getrf_atomic a : atomic (getrf build a).
Proof.
  intros t. unfold getrf, c_GetShape.
  destruct (GetShape a) as [a_shape |]; step_wrapper; [| stop_atomic].
  destruct (2 <=? Py.len (dimensions a_shape)); [| stop_atomic].
  destruct (Py.slice_from (dimensions a_shape) (-2))
    as [| m [| n [| z l]]]; try stop_atomic.
  destruct ((1 <? _) && (m =? n) && (_ <=? 128));
    consult_builder build; run_atomic.
Qed.

Lemma geqrf_atomic a : atomic (geqrf build a).
Proof.
  intros t. unfold geqrf, c_GetShape.
  destruct (GetShape a) as [a_shape |]; step_wrapper; [| stop_atomic].
  destruct (2 <=? Py.len (dimensions a_shape)); [| stop_atomic].
  destruct (Py.slice_from (dimensions a_shape) (-2))
    as [| m [| n [| z l]]]; try stop_atomic.
  consult_builder build. run_atomic.
Qed.

Lemma orgqr_atomic a tau : atomic (orgqr build a tau).
Proof.
  intros t. unfold orgqr, c_GetShape.
  destruct (GetShape a) as [a_shape |]; step_wrapper; [| stop_atomic].
  destruct (2 <=? Py.len (dimensions a_shape)); [| stop_atomic].
  destruct (Py.slice_from (dimensions a_shape) (-2))
    as [| m [| n [| z l]]]; try stop_atomic.
  destruct (GetShape tau) as [tau_shape |]; step_wrapper; [| stop_atomic].
  destruct (Py.tuple_eqb _ _); [| stop_atomic].
  destruct (Py.index (dimensions tau_shape) (-1)) as [e | k];
    [stop_atomic |].
  consult_builder build. run_atomic.
Qed.

Lemma syevd_atomic a lower : atomic (syevd build a lower).
Proof.
  intros t. unfold syevd, c_GetShape.
  destruct (GetShape a) as [a_shape |]; step_wrapper; [| stop_atomic].
  destruct (2 <=? Py.len (dimensions a_shape)); [| stop_atomic].
  destruct (Py.slice_from (dimensions a_shape) (-2))
    as [| m [| n [| z l]]]; try stop_atomic.
  destruct (m =? n); [| stop_atomic].
  destruct (n <=? 32); consult_builder build;
    (destruct (_real_type (element_type a_shape)) as [e | r];
     [ cbn [fst snd]; eexists; split; [reflexivity |];
       split; [reflexivity | simpl; lia]
     | run_atomic ]).
Qed.

Lemma gesvd_atomic a full_matrices compute_uv :
  atomic (gesvd build a full_matrices compute_uv).
Proof.
  intros t. unfold gesvd, c_GetShape.
  destruct (GetShape a) as [a_shape |]; step_wrapper; [| stop_atomic].
  destruct (dimensions a_shape) as [| m [| n [| z l]]]; try stop_atomic.
  destruct (_real_type (element_type a_shape)) as [e | r]; [stop_atomic |].
  destruct (m <? n), full_matrices; consult_builder build; run_atomic.
Qed.

End Atomicity.

(** X7: each of the six wrappers, on any operands and flags and from any
    log, only appends to the log and consults the descriptor builders at
    most once; when it raises, no custom call has been issued, and when it
    returns, exactly one descriptor has been requested and exactly one
    custom call issued. *)
Theorem wrappers_atomic (build : DescriptorRequest -> Z * Opaque) :
  (forall a b left_side lower trans_a conj_a diag,
      atomic (trsm build a b left_side lower trans_a conj_a diag))
  /\ (forall a, atomic (getrf build a))
  /\ (forall a, atomic (geqrf build a))
  /\ (forall a tau, atomic (orgqr build a tau))
  /\ (forall a lower, atomic (syevd build a lower))
  /\ (forall a full_matrices compute_uv,
         atomic (gesvd build a full_matrices compute_uv)).
Proof.
  split; [exact (trsm_atomic build) |].
  split; [exact (getrf_atomic build) |].
  split; [exact (geqrf_atomic build) |].
  split; [exact (orgqr_atomic build) |].
  split; [exact (syevd_atomic build) | exact (gesvd_atomic build)].
Qed.

(** ** Layouts are permutations of the axes *)

Lemma scalar_permutation (N : nat) :
  Permutation (LayoutPlanner.scalar N) (map Z.of_nat (seq 0 N)).
Proof.
  unfold LayoutPlanner.scalar. apply Permutation_map.
  apply Permutation_sym, Permutation_rev.
Qed.

Lemma vector_permutation (N : nat) :
  Permutation (LayoutPlanner.vector N) (map Z.of_nat (seq 0 (S N))).
Proof.
  unfold LayoutPlanner.vector. apply Permutation_map. rewrite seq_S.
  cbn [Nat.add]. etransitivity; [apply Permutation_cons_append |].
  apply Permutation_app_tail, Permutation_sym, Permutation_rev.
Qed.

Lemma matrix_permutation (N : nat) :
  Permutation (LayoutPlanner.matrix N) (map Z.of_nat (seq 0 (S (S N)))).
Proof.
  unfold LayoutPlanner.matrix. apply Permutation_map.
  rewrite (seq_S (S N)), seq_S. cbn [Nat.add]. rewrite <- app_assoc.
  cbn [app].
  etransitivity;
    [apply (Permutation_app_comm [N; S N] (rev (seq 0 N))) |].
  apply Permutation_app_tail, Permutation_sym, Permutation_rev.
Qed.

Lemma well_laid_matrix (dt : dtype) (bd : list Z) (m n : Z) :
  well_laid (array_shape dt (bd ++ [m; n])
               (Some (matrix_layout (Py.len bd)))).
Proof.
  eexists. split; [reflexivity |]. cbn [dimensions].
  rewrite matrix_layout_planned, length_app. cbn [List.length].
  replace (List.length bd + 2)%nat with (S (S (List.length bd))) by lia.
  apply matrix_permutation.
Qed.

Lemma well_laid_vector (dt : dtype) (bd : list Z) (k : Z) :
  well_laid (array_shape dt (bd ++ [k])
               (Some (Py.range (Py.len bd) (-1) (-1)))).
Proof.
  eexists. split; [reflexivity |]. cbn [dimensions].
  rewrite range_vector_planned, length_app. cbn [List.length].
  replace (List.length bd + 1)%nat with (S (List.length bd)) by lia.
  apply vector_permutation.
Qed.

Lemma well_laid_scalar (dt : dtype) (bd : list Z) :
  well_laid (array_shape dt bd (Some (Py.range (Py.len bd - 1) (-1) (-1)))).
Proof.
  eexists. split; [reflexivity |]. cbn [dimensions].
  rewrite range_scalar_planned. apply scalar_permutation.
Qed.

Lemma well_laid_flat (dt : dtype) (lwork : Z) :
  well_laid (array_shape dt [lwork] (Some [0])).
Proof. eexists. split; [reflexivity |]. apply Permutation_refl. Qed.

Lemma well_laid_unit (dt : dtype) : well_laid (array_shape dt [] (Some [])).
Proof. eexists. split; [reflexivity |]. apply Permutation_refl. Qed.

Lemma well_laid_pair (dt : dtype) (x y : Z) (swap : bool) :
  well_laid (array_shape dt [x; y] (Some (if swap then [1; 0] else [0; 1]))).
Proof.
  eexists. split; [reflexivity |]. cbn [dimensions List.length seq map].
  destruct swap; [apply perm_swap | apply Permutation_refl].
Qed.

Create HintDb layouts.
#[local] Hint Resolve well_laid_matrix well_laid_vector well_laid_scalar
  well_laid_flat well_laid_unit well_laid_pair : layouts.

Ltac all_well_laid :=
  unfold declared_shapes; cbn [operand_shapes result_shapes app];
  repeat (apply Forall_cons; [auto with layouts |]); apply Forall_nil.

(** X8: every shape that a wrapper declares in the custom call it issues,
    whether for an operand, a result or the workspace, carries a layout
    that is a permutation of the axes of that shape; this holds for the six
    wrappers, and for both dispatches of [gesvd]. *)
Theorem declared_layouts_are_permutations
    (build : DescriptorRequest -> Z * Opaque) :
  (forall a b lay_a dt bd (m n : Z) lay
          (left_side lower trans_a conj_a diag : bool) t,
      GetShape b = Some (array_shape dt (bd ++ [m; n]) lay) ->
      GetShape a = Some (array_shape dt
                           (bd ++ [if left_side then m else n;
                                   if left_side then m else n]) lay_a) ->
      conj_a && negb trans_a = false ->
      exists call,
        emits (trsm build a b left_side lower trans_a conj_a diag) t call
        /\ Forall well_laid (declared_shapes call))
  /\ (forall a dt bd m n lay t,
         GetShape a = Some (array_shape dt (bd ++ [m; n]) lay) ->
         exists call,
           emits (getrf build a) t call
           /\ Forall well_laid (declared_shapes call))
  /\ (forall a dt bd m n lay t,
         GetShape a = Some (array_shape dt (bd ++ [m; n]) lay) ->
         exists call,
           emits (geqrf build a) t call
           /\ Forall well_laid (declared_shapes call))
  /\ (forall a tau dt tau_dt bd m n k lay tau_lay t,
         GetShape a = Some (array_shape dt (bd ++ [m; n]) lay) ->
         GetShape tau = Some (array_shape tau_dt (bd ++ [k]) tau_lay) ->
         exists call,
           emits (orgqr build a tau) t call
           /\ Forall well_laid (declared_shapes call))
  /\ (forall a dt r bd n lay lower t,
         GetShape a = Some (array_shape dt (bd ++ [n; n]) lay) ->
         _real_type dt = inr r ->
         exists call,
           emits (syevd build a lower) t call
           /\ Forall well_laid (declared_shapes call))
  /\ (forall a dt r m n lay full_matrices compute_uv t,
         GetShape a = Some (array_shape dt [m; n] lay) ->
         _real_type dt = inr r ->
         exists call,
           emits (gesvd build a full_matrices compute_uv) t call
           /\ Forall well_laid (declared_shapes call)).
Proof.
  split; [| split; [| split; [| split; [| split]]]].
  - intros a b lay_a dt bd m n lay left_side lower trans_a conj_a diag t
      Hb Ha Hc.
    destruct (trsm_emits build a b lay_a dt bd m n lay left_side lower
                trans_a conj_a diag t Hb Ha Hc) as (lwork & opaque & Hemits).
    eexists. split; [exact Hemits | all_well_laid].
  - intros a dt bd m n lay t Ha.
    destruct (getrf_emits build a dt bd m n lay t Ha)
      as (lwork & opaque & wdt & Hemits).
    eexists. split; [exact Hemits | all_well_laid].
  - intros a dt bd m n lay t Ha.
    destruct (geqrf_emits build a dt bd m n lay t Ha)
      as (lwork & opaque & Hemits).
    eexists. split; [exact Hemits | all_well_laid].
  - intros a tau dt tau_dt bd m n k lay tau_lay t Ha Htau.
    destruct (orgqr_emits build a tau dt tau_dt bd m n k lay tau_lay t
                Ha Htau) as (lwork & opaque & Hemits).
    eexists. split; [exact Hemits | all_well_laid].
  - intros a dt r bd n lay lower t Ha Hr.
    destruct (syevd_emits build a dt r bd n lay lower t Ha Hr)
      as (lwork & opaque & Hemits).
    eexists. split; [exact Hemits | all_well_laid].
  - intros a dt r m n lay full_matrices compute_uv t Ha Hr.
    destruct (gesvd_emits build a dt r m n lay full_matrices compute_uv t
                Ha Hr) as (lwork & opaque & Hemits).
    eexists. split; [exact Hemits |].
    unfold declared_shapes; cbn [operand_shapes result_shapes app].
    destruct (m <? n);
      repeat (apply Forall_cons;
              [first [apply (well_laid_pair dt _ _ true)
                     | apply (well_laid_pair dt _ _ false)
                     | auto with layouts] |]);
      apply Forall_nil.
Qed.

Lemma declared_layouts_are_permutations_witness :
  exists call,
    emits (gesvd sample_build (sample_operand np_complex128 [3; 5])
             false true) [] call
    /\ Forall well_laid (declared_shapes call).
Proof.
  destruct (declared_layouts_are_permutations sample_build)
    as (_ & _ & _ & _ & _ & Hgesvd).
  exact (Hgesvd (sample_operand np_complex128 [3; 5]) np_complex128
           np_float64 3 5 None false true [] eq_refl eq_refl).
Defined.

(** ** From the descriptor builder to the call *)

Section Dataflow.

Variable build : DescriptorRequest -> Z * Opaque.

Ltac finish_full :=
  cbn [negb fst snd]; step_wrapper; rewrite <- ?app_assoc;
  cbn [app fst snd];
  eexists; split; [eexists; split; reflexivity | reflexivity].

Lemma trsm_full a b lay_a dt bd (m n : Z) lay
    (left_side lower trans_a conj_a diag : bool) t :
  GetShape b = Some (array_shape dt (bd ++ [m; n]) lay) ->
  GetShape a = Some (array_shape dt
                       (bd ++ [if left_side then m else n;
                               if left_side then m else n]) lay_a) ->
  conj_a && negb trans_a = false ->
  exists call,
    returns (trsm build a b left_side lower trans_a conj_a diag) t
      (GetTupleElement call 0) call
    /\ call =
       CustomCall "cublas_trsm_batched" [a; b]
         [array_shape dt (bd ++ [m; n]) (Some (matrix_layout (Py.len bd)));
          array_shape np_int8
            [fst (build (build_trsm_batched_descriptor dt (_prod bd) m n
                           left_side lower trans_a conj_a diag))]
            (Some [0]);
          array_shape np_int8
            [fst (build (build_trsm_batched_descriptor dt (_prod bd) m n
                           left_side lower trans_a conj_a diag))]
            (Some [0])]
         [array_shape dt (bd ++ [if left_side then m else n;
                                 if left_side then m else n])
            (Some (matrix_layout (Py.len bd)));
          array_shape dt (bd ++ [m; n]) (Some (matrix_layout (Py.len bd)))]
         (snd (build (build_trsm_batched_descriptor dt (_prod bd) m n
                        left_side lower trans_a conj_a diag))).
Proof.
  intros Hb Ha Hc. unfold returns, trsm. start_wrapper Hb.
  unfold c_GetShape. rewrite Ha. step_wrapper.
  rewrite tuple_eqb_refl, (internal_dtype_dec_lb dt dt eq_refl), Hc.
  cbn [negb orb]. consult_builder build. finish_full.
Qed.

Lemma getrf_full a dt bd m n lay t :
  GetShape a = Some (array_shape dt (bd ++ [m; n]) lay) ->
  exists call,
    returns (getrf build a) t
      (GetTupleElement call 0, GetTupleElement call 1,
       GetTupleElement call 2) call
    /\ call =
       CustomCall (getrf_kernel bd m n) [a]
         [array_shape dt (bd ++ [m; n]) (Some (matrix_layout (Py.len bd)));
          array_shape np_int32 (bd ++ [Z.min m n])
            (Some (Py.range (Py.len bd) (-1) (-1)));
          array_shape np_int32 bd
            (Some (Py.range (Py.len bd - 1) (-1) (-1)));
          array_shape
            (if (1 <? _prod bd) && (m =? n) && (m / _prod bd <=? 128)
             then np_int8 else dt)
            [fst (build
                    (if (1 <? _prod bd) && (m =? n)
                        && (m / _prod bd <=? 128)
                     then build_getrf_batched_descriptor dt (_prod bd) m
                     else build_getrf_descriptor dt (_prod bd) m n))]
            (Some [0])]
         [array_shape dt (bd ++ [m; n]) (Some (matrix_layout (Py.len bd)))]
         (snd (build
                 (if (1 <? _prod bd) && (m =? n) && (m / _prod bd <=? 128)
                  then build_getrf_batched_descriptor dt (_prod bd) m
                  else build_getrf_descriptor dt (_prod bd) m n))).
Proof.
  intros H. unfold returns, getrf, getrf_kernel. start_wrapper H.
  destruct ((1 <? _prod bd) && (m =? n) && (m / _prod bd <=? 128));
    cbv beta iota; consult_builder build; finish_full.
Qed.

Lemma orgqr_full a tau dt tau_dt bd m n k lay tau_lay t :
  GetShape a = Some (array_shape dt (bd ++ [m; n]) lay) ->
  GetShape tau = Some (array_shape tau_dt (bd ++ [k]) tau_lay) ->
  exists call,
    returns (orgqr build a tau) t
      (GetTupleElement call 0, GetTupleElement call 1) call
    /\ call =
       CustomCall "cusolver_orgqr" [a; tau]
         [array_shape dt (bd ++ [m; n]) (Some (matrix_layout (Py.len bd)));
          array_shape np_int32 bd
            (Some (Py.range (Py.len bd - 1) (-1) (-1)));
          array_shape dt
            [fst (build (build_orgqr_descriptor dt (_prod bd) m n k))]
            (Some [0])]
         [array_shape dt (bd ++ [m; n]) (Some (matrix_layout (Py.len bd)));
          array_shape dt (bd ++ [k])
            (Some (Py.range (Py.len bd) (-1) (-1)))]
         (snd (build (build_orgqr_descriptor dt (_prod bd) m n k))).
Proof.
  intros Ha Htau. unfold returns, orgqr. start_wrapper Ha.
  unfold c_GetShape. rewrite Htau. step_wrapper.
  rewrite slice_to_last1, tuple_eqb_refl, index_last.
  consult_builder build. finish_full.
Qed.

Lemma syevd_full a dt r bd n lay lower t :
  GetShape a = Some (array_shape dt (bd ++ [n; n]) lay) ->
  _real_type dt = inr r ->
  exists call,
    returns (syevd build a lower) t
      (GetTupleElement call 0, GetTupleElement call 1,
       GetTupleElement call 2) call
    /\ call =
       CustomCall (syevd_kernel n) [a]
         [array_shape dt (bd ++ [n; n]) (Some (matrix_layout (Py.len bd)));
          array_shape r (bd ++ [n])
            (Some (Py.range (Py.len bd) (-1) (-1)));
          array_shape np_int32 bd
            (Some (Py.range (Py.len bd - 1) (-1) (-1)));
          array_shape dt
            [fst (build
                    (if n <=? 32
                     then build_syevj_descriptor dt lower (_prod bd) n
                     else build_syevd_descriptor dt lower (_prod bd) n))]
            (Some [0])]
         [array_shape dt (bd ++ [n; n]) (Some (matrix_layout (Py.len bd)))]
         (snd (build
                 (if n <=? 32
                  then build_syevj_descriptor dt lower (_prod bd) n
                  else build_syevd_descriptor dt lower (_prod bd) n))).
Proof.
  intros Ha Hr. unfold returns, syevd, syevd_kernel. start_wrapper Ha.
  rewrite Z.eqb_refl, Hr.
  destruct (n <=? 32); cbv beta iota; consult_builder build; finish_full.
Qed.

Lemma gesvd_full a dt r m n lay full_matrices compute_uv t :
  GetShape a = Some (array_shape dt [m; n] lay) ->
  _real_type dt = inr r ->
  exists call,
    returns (gesvd build a full_matrices compute_uv) t
      (GetTupleElement call 1,
       (if full_matrices
        then GetTupleElement call (if m <? n then 3 else 2)
        else Slice (GetTupleElement call (if m <? n then 3 else 2))
               [0; 0] [m; Z.min m n]),
       (if full_matrices
        then GetTupleElement call (if m <? n then 2 else 3)
        else Slice (GetTupleElement call (if m <? n then 2 else 3))
               [0; 0] [Z.min m n; n]),
       GetTupleElement call 4) call
    /\ call =
       CustomCall "cusolver_gesvd" [a]
         [array_shape dt [m; n] (Some (if m <? n then [1; 0] else [0; 1]));
          array_shape r [Z.min m n] (Some [0]);
          array_shape dt (if m <? n then [n; n] else [m; m])
            (Some (if m <? n then [1; 0] else [0; 1]));
          array_shape dt (if m <? n then [m; m] else [n; n])
            (Some (if m <? n then [1; 0] else [0; 1]));
          array_shape np_int32 [] (Some []);
          array_shape dt
            [fst (build
                    (if m <? n
                     then build_gesvd_descriptor dt 1 n m compute_uv
                            full_matrices
                     else build_gesvd_descriptor dt 1 m n compute_uv
                            full_matrices))]
            (Some [0])]
         [array_shape dt [m; n] (Some (if m <? n then [1; 0] else [0; 1]))]
         (snd (build
                 (if m <? n
                  then build_gesvd_descriptor dt 1 n m compute_uv
                         full_matrices
                  else build_gesvd_descriptor dt 1 m n compute_uv
                         full_matrices))).
Proof.
  intros Ha Hr. unfold returns, gesvd. start_wrapper Ha. rewrite Hr.
  destruct (m <? n), full_matrices; cbv beta iota;
    consult_builder build; finish_full.
Qed.

Lemma geqrf_full a dt bd m n lay t :
  GetShape a = Some (array_shape dt (bd ++ [m; n]) lay) ->
  exists call,
    returns (geqrf build a) t
      (GetTupleElement call 0, GetTupleElement call 1,
       GetTupleElement call 2) call
    /\ call =
       CustomCall "cusolver_geqrf" [a]
         [array_shape dt (bd ++ [m; n]) (Some (matrix_layout (Py.len bd)));
          array_shape dt (bd ++ [Z.min m n])
            (Some (Py.range (Py.len bd) (-1) (-1)));
          array_shape np_int32 bd
            (Some (Py.range (Py.len bd - 1) (-1) (-1)));
          array_shape dt
            [fst (build (build_geqrf_descriptor dt (_prod bd) m n))]
            (Some [0])]
         [array_shape dt (bd ++ [m; n]) (Some (matrix_layout (Py.len bd)))]
         (snd (build (build_geqrf_descriptor dt (_prod bd) m n))).
Proof.
  intros H. unfold returns, geqrf. start_wrapper H.
  consult_builder build. finish_full.
Qed.

End Dataflow.

Lemma returns_emits {A} (c : M A) (t : Trace) (r : A) (call : XlaOp) :
  returns c t r call -> emits c t call.
Proof. intros (t' & Hrun & Hi). exists r, t'. split; assumption. Qed.

Lemma emits_accepts {A} (c : M A) (t : Trace) (call : XlaOp) :
  emits c t call -> accepts c t.
Proof. intros (r & t' & Hrun & _). exists r. eexists. exact Hrun. Qed.

Ltac configured_by Hfull Hconsults :=
  destruct Hfull as (call & Hreturns & ->);
  eexists; split; [exact (returns_emits _ _ _ _ Hreturns) |];
  split; [exact Hconsults |];
  split; [reflexivity |];
  repeat (apply Forall_cons; [reflexivity |]); apply Forall_nil.

(** X9: what the descriptor builder returns is what goes into the call.
    Each wrapper consults one descriptor builder, with the element type,
    the product of the batch dimensions and the matrix dimensions it read
    from the operand (and its flags), and the call it then issues has the
    returned configuration as its opaque argument and the returned size as
    the length of its workspace results: positions 1 and 2 for [trsm], 3
    for [getrf], [geqrf] and [syevd], 2 for [orgqr], 5 for [gesvd]. *)
Theorem descriptor_reaches_call (build : DescriptorRequest -> Z * Opaque) :
  (forall a b lay_a dt bd (m n : Z) lay
          (left_side lower trans_a conj_a diag : bool) t,
      GetShape b = Some (array_shape dt (bd ++ [m; n]) lay) ->
      GetShape a = Some (array_shape dt
                           (bd ++ [if left_side then m else n;
                                   if left_side then m else n]) lay_a) ->
      conj_a && negb trans_a = false ->
      configured build
        (trsm build a b left_side lower trans_a conj_a diag) t
        (build_trsm_batched_descriptor dt (_prod bd) m n left_side lower
           trans_a conj_a diag)
        [1; 2]%nat)
  /\ (forall a dt bd m n lay t,
         GetShape a = Some (array_shape dt (bd ++ [m; n]) lay) ->
         configured build (getrf build a) t
           (if (1 <? _prod bd) && (m =? n) && (m / _prod bd <=? 128)
            then build_getrf_batched_descriptor dt (_prod bd) m
            else build_getrf_descriptor dt (_prod bd) m n)
           [3%nat])
  /\ (forall a dt bd m n lay t,
         GetShape a = Some (array_shape dt (bd ++ [m; n]) lay) ->
         configured build (geqrf build a) t
           (build_geqrf_descriptor dt (_prod bd) m n) [3%nat])
  /\ (forall a tau dt tau_dt bd m n k lay tau_lay t,
         GetShape a = Some (array_shape dt (bd ++ [m; n]) lay) ->
         GetShape tau = Some (array_shape tau_dt (bd ++ [k]) tau_lay) ->
         configured build (orgqr build a tau) t
           (build_orgqr_descriptor dt (_prod bd) m n k) [2%nat])
  /\ (forall a dt r bd n lay lower t,
         GetShape a = Some (array_shape dt (bd ++ [n; n]) lay) ->
         _real_type dt = inr r ->
         configured build (syevd build a lower) t
           (if n <=? 32 then build_syevj_descriptor dt lower (_prod bd) n
            else build_syevd_descriptor dt lower (_prod bd) n)
           [3%nat])
  /\ (forall a dt r m n lay full_matrices compute_uv t,
         GetShape a = Some (array_shape dt [m; n] lay) ->
         _real_type dt = inr r ->
         configured build (gesvd build a full_matrices compute_uv) t
           (if m <? n
            then build_gesvd_descriptor dt 1 n m compute_uv full_matrices
            else build_gesvd_descriptor dt 1 m n compute_uv full_matrices)
           [5%nat]).
Proof.
  unfold configured.
  split; [| split; [| split; [| split; [| split]]]].
  - intros a b lay_a dt bd m n lay left_side lower trans_a conj_a diag t
      Hb Ha Hc.
    pose proof (trsm_full build a b lay_a dt bd m n lay left_side lower
                  trans_a conj_a diag t Hb Ha Hc) as Hfull.
    pose proof (trsm_consults build a b lay_a dt bd m n lay left_side lower
                  trans_a conj_a diag t Hb Ha Hc) as Hconsults.
    configured_by Hfull Hconsults.
  - intros a dt bd m n lay t Ha.
    pose proof (getrf_full build a dt bd m n lay t Ha) as Hfull.
    pose proof (getrf_consults build a dt bd m n lay t Ha) as Hconsults.
    configured_by Hfull Hconsults.
  - intros a dt bd m n lay t Ha.
    pose proof (geqrf_full build a dt bd m n lay t Ha) as Hfull.
    pose proof (geqrf_consults build a dt bd m n lay t Ha) as Hconsults.
    configured_by Hfull Hconsults.
  - intros a tau dt tau_dt bd m n k lay tau_lay t Ha Htau.
    pose proof (orgqr_full build a tau dt tau_dt bd m n k lay tau_lay t
                  Ha Htau) as Hfull.
    pose proof (orgqr_consults build a tau dt tau_dt bd m n k lay tau_lay t
                  Ha Htau) as Hconsults.
    configured_by Hfull Hconsults.
  - intros a dt r bd n lay lower t Ha Hr.
    pose proof (syevd_full build a dt r bd n lay lower t Ha Hr) as Hfull.
    pose proof (syevd_consults build a dt r bd n lay lower t Ha Hr)
      as Hconsults.
    configured_by Hfull Hconsults.
  - intros a dt r m n lay full_matrices compute_uv t Ha Hr.
    pose proof (gesvd_full build a dt r m n lay full_matrices compute_uv t
                  Ha Hr) as Hfull.
    pose proof (gesvd_consults build a dt r m n lay full_matrices compute_uv
                  t Ha Hr) as Hconsults.
    configured_by Hfull Hconsults.
Qed.

Lemma descriptor_reaches_call_witness :
  configured sizing_build
    (getrf sizing_build (sample_operand np_float32 [4; 64; 64])) []
    (build_getrf_batched_descriptor np_float32 4 64) [3%nat]
  /\ configured sizing_build
       (gesvd sizing_build (sample_operand np_float32 [3; 5]) true false) []
       (build_gesvd_descriptor np_float32 1 5 3 false true) [5%nat].
Proof.
  destruct (descriptor_reaches_call sizing_build)
    as (_ & Hgetrf & _ & _ & _ & Hgesvd).
  split.
  - exact (Hgetrf (sample_operand np_float32 [4; 64; 64]) np_float32 [4]
             64 64 None [] eq_refl).
  - exact (Hgesvd (sample_operand np_float32 [3; 5]) np_float32 np_float32
             3 5 None true false [] eq_refl eq_refl).
Defined.

(** ** What the wrappers return *)

(** X10: on accepted operands [trsm] always issues "cublas_trsm_batched",
    with or without batch dimensions, on the operands [(a, b)] in that
    order, and returns the first element of the result tuple, which has
    the element type and the dimensions of the right-hand side [b]; the
    other two results are int8 workspaces that are not returned. *)
Theorem trsm_result
    (build : DescriptorRequest -> Z * Opaque) (a b : XlaOp) (dt : dtype)
    (bd : list Z) (m n : Z) (lay lay_a : option (list Z))
    (left_side lower trans_a conj_a diag : bool) (t : Trace) :
  GetShape b = Some (array_shape dt (bd ++ [m; n]) lay) ->
  GetShape a = Some (array_shape dt
                       (bd ++ [if left_side then m else n;
                               if left_side then m else n]) lay_a) ->
  conj_a && negb trans_a = false ->
  exists call x,
    returns (trsm build a b left_side lower trans_a conj_a diag) t x call
    /\ target_of call = Some "cublas_trsm_batched"
    /\ operands_of call = [a; b]
    /\ x = GetTupleElement call 0
    /\ typed_dims_of x = Some (dt, (bd ++ [m; n])%list)
    /\ map element_type (result_shapes call) = [dt; np_int8; np_int8]
    /\ map typed_dims (operand_shapes call)
       = [(dt, (bd ++ [if left_side then m else n;
                       if left_side then m else n])%list);
          (dt, (bd ++ [m; n])%list)].
Proof.
  intros Hb Ha Hc.
  destruct (trsm_full build a b lay_a dt bd m n lay left_side lower trans_a
              conj_a diag t Hb Ha Hc) as (call & Hreturns & ->).
  do 2 eexists. split; [exact Hreturns |]. repeat split.
Qed.

Lemma trsm_result_witness :
  exists call x,
    returns (trsm sample_build (sample_operand np_float32 [4; 4])
               (sample_operand np_float32 [4; 5])
               true false false false false) [] x call
    /\ target_of call = Some "cublas_trsm_batched"
    /\ typed_dims_of x = Some (np_float32, [4; 5]).
Proof.
  destruct (trsm_result sample_build (sample_operand np_float32 [4; 4])
              (sample_operand np_float32 [4; 5]) np_float32 [] 4 5 None None
              true false false false false [] eq_refl eq_refl eq_refl)
    as (call & x & Hreturns & Htarget & _ & _ & Hx & _).
  exists call, x. repeat split; assumption.
Defined.

(** X11: on a tensor of element type [dt] with batch dimensions [bd] and
    matrix shape [(m, n)], [getrf] returns the first three elements of the
    result tuple, in order: the factored matrix of type [dt] and shape
    [bd + (m, n)], the pivots of type int32 and shape [bd + (min(m, n),)],
    and the status of type int32 and shape [bd].  The workspace, fourth and
    not returned, is of type int8 for the batched kernel and of type [dt]
    for the general one. *)
Theorem getrf_results
    (build : DescriptorRequest -> Z * Opaque) (a : XlaOp) (dt : dtype)
    (bd : list Z) (m n : Z) (lay : option (list Z)) (t : Trace) :
  GetShape a = Some (array_shape dt (bd ++ [m; n]) lay) ->
  exists call lu pivots info,
    returns (getrf build a) t (lu, pivots, info) call
    /\ lu = GetTupleElement call 0
    /\ pivots = GetTupleElement call 1
    /\ info = GetTupleElement call 2
    /\ typed_dims_of lu = Some (dt, (bd ++ [m; n])%list)
    /\ typed_dims_of pivots = Some (np_int32, (bd ++ [Z.min m n])%list)
    /\ typed_dims_of info = Some (np_int32, bd)
    /\ List.length (result_shapes call) = 4%nat
    /\ (target_of call = Some "cublas_getrf_batched" ->
        option_map element_type (nth_error (result_shapes call) 3)
        = Some np_int8)
    /\ (target_of call = Some "cusolver_getrf" ->
        option_map element_type (nth_error (result_shapes call) 3)
        = Some dt).
Proof.
  intros Ha.
  destruct (getrf_full build a dt bd m n lay t Ha)
    as (call & Hreturns & ->).
  do 4 eexists. split; [exact Hreturns |].
  unfold getrf_kernel. cbn [target_of result_shapes nth_error option_map
                            element_type List.length].
  destruct ((1 <? _prod bd) && (m =? n) && (m / _prod bd <=? 128));
    repeat split; intros; try reflexivity; discriminate.
Qed.

Lemma getrf_results_witness :
  exists call lu pivots info,
    returns (getrf sample_build (sample_operand np_complex64 [4; 6; 6])) []
      (lu, pivots, info) call
    /\ typed_dims_of pivots = Some (np_int32, [4; 6])
    /\ option_map element_type (nth_error (result_shapes call) 3)
       = Some np_int8.
Proof.
  destruct (getrf_results sample_build (sample_operand np_complex64 [4; 6; 6])
              np_complex64 [4] 6 6 None [] eq_refl)
    as (call & lu & pivots & info & Hreturns & Hlu & _ & _ & _ & Hp & _ & _
        & Hbatched & _).
  exists call, lu, pivots, info.
  split; [exact Hreturns |]. split; [exact Hp |].
  apply Hbatched.
  destruct Hreturns as (t' & Hrun & Hissued).
  vm_compute in Hrun. injection Hrun as _ _ _ Ht'. subst t'.
  vm_compute in Hissued. injection Hissued as <-. reflexivity.
Defined.

(** X12: on a matrix of element type [dt] with batch dimensions [bd] and a
    [tau] of dimensions [bd + (k,)], [orgqr] returns the first two elements
    of the result tuple, the matrix of type [dt] and shape [bd + (m, n)]
    and the status of type int32 and shape [bd].  The element type of [tau]
    is not looked at: the call declares [tau] with the element type of the
    matrix; and [k] goes to the descriptor builder as it is, without being
    compared with [m] or [n]. *)
Theorem orgqr_results
    (build : DescriptorRequest -> Z * Opaque) (a tau : XlaOp)
    (dt tau_dt : dtype) (bd : list Z) (m n k : Z)
    (lay tau_lay : option (list Z)) (t : Trace) :
  GetShape a = Some (array_shape dt (bd ++ [m; n]) lay) ->
  GetShape tau = Some (array_shape tau_dt (bd ++ [k]) tau_lay) ->
  exists call q info,
    returns (orgqr build a tau) t (q, info) call
    /\ consults (orgqr build a tau) t
         (build_orgqr_descriptor dt (_prod bd) m n k)
    /\ target_of call = Some "cusolver_orgqr"
    /\ operands_of call = [a; tau]
    /\ q = GetTupleElement call 0
    /\ info = GetTupleElement call 1
    /\ typed_dims_of q = Some (dt, (bd ++ [m; n])%list)
    /\ typed_dims_of info = Some (np_int32, bd)
    /\ map typed_dims (operand_shapes call)
       = [(dt, (bd ++ [m; n])%list); (dt, (bd ++ [k])%list)].
Proof.
  intros Ha Htau.
  destruct (orgqr_full build a tau dt tau_dt bd m n k lay tau_lay t Ha Htau)
    as (call & Hreturns & ->).
  do 3 eexists. split; [exact Hreturns |].
  split; [exact (orgqr_consults build a tau dt tau_dt bd m n k lay tau_lay
                   t Ha Htau) |].
  repeat split.
Qed.

Lemma orgqr_results_witness :
  exists call q info,
    returns (orgqr sample_build (sample_operand np_float32 [2; 4; 3])
               (sample_operand np_float64 [2; 9])) [] (q, info) call
    /\ consults (orgqr sample_build (sample_operand np_float32 [2; 4; 3])
                   (sample_operand np_float64 [2; 9])) []
         (build_orgqr_descriptor np_float32 2 4 3 9)
    /\ map typed_dims (operand_shapes call)
       = [(np_float32, [2; 4; 3]); (np_float32, [2; 9])].
Proof.
  destruct (orgqr_results sample_build (sample_operand np_float32 [2; 4; 3])
              (sample_operand np_float64 [2; 9]) np_float32 np_float64
              [2] 4 3 9 None None [] eq_refl eq_refl)
    as (call & q & info & Hreturns & Hreq & _ & _ & _ & _ & _ & _ & Hops).
  exists call, q, info. repeat split; assumption.
Defined.

(** X13: on a batch of square matrices of element type [dt], with
    [_real_type(dt) = r], [syevd] returns the first three elements of the
    result tuple, in order: the eigenvectors of type [dt] and the shape of
    the operand, the eigenvalues of type [r] and shape [bd + (n,)], and the
    status of type int32 and shape [bd]; the [lower] flag reaches the
    descriptor only. *)
Theorem syevd_results
    (build : DescriptorRequest -> Z * Opaque) (a : XlaOp) (dt r : dtype)
    (bd : list Z) (n : Z) (lay : option (list Z)) (lower : bool)
    (t : Trace) :
  GetShape a = Some (array_shape dt (bd ++ [n; n]) lay) ->
  _real_type dt = inr r ->
  exists call v w info,
    returns (syevd build a lower) t (v, w, info) call
    /\ v = GetTupleElement call 0
    /\ w = GetTupleElement call 1
    /\ info = GetTupleElement call 2
    /\ typed_dims_of v = Some (dt, (bd ++ [n; n])%list)
    /\ typed_dims_of w = Some (r, (bd ++ [n])%list)
    /\ typed_dims_of info = Some (np_int32, bd)
    /\ map typed_dims (firstn 3 (result_shapes call))
       = [(dt, (bd ++ [n; n])%list); (r, (bd ++ [n])%list); (np_int32, bd)]
    /\ map typed_dims (operand_shapes call) = [(dt, (bd ++ [n; n])%list)].
Proof.
  intros Ha Hr.
  destruct (syevd_full build a dt r bd n lay lower t Ha Hr)
    as (call & Hreturns & ->).
  do 4 eexists. split; [exact Hreturns |]. repeat split.
Qed.

Lemma syevd_results_witness :
  exists call v w info,
    returns (syevd sample_build (sample_operand np_complex128 [2; 3; 3])
               true) [] (v, w, info) call
    /\ typed_dims_of v = Some (np_complex128, [2; 3; 3])
    /\ typed_dims_of w = Some (np_float64, [2; 3])
    /\ typed_dims_of info = Some (np_int32, [2]).
Proof.
  destruct (syevd_results sample_build
              (sample_operand np_complex128 [2; 3; 3]) np_complex128
              np_float64 [2] 3 None true [] eq_refl eq_refl)
    as (call & v & w & info & Hreturns & _ & _ & _ & Hv & Hw & Hinfo & _).
  exists call, v, w, info. repeat split; assumption.
Defined.

(** X14: on a matrix of shape [(m, n)] and element type [dt], with
    [_real_type(dt) = r], [gesvd] returns [(s, u, vt, info)] where [s], the
    second element of the result tuple, has type [r] and shape
    [(min(m, n),)], [info], the fifth, is an int32 scalar, and [u] and [vt]
    have type [dt].  The first element of the tuple, of the shape of the
    operand, and the workspace are declared but not returned.  None of the
    declared shapes before the workspace depends on [compute_uv] or on
    [full_matrices], which reach the descriptor only. *)
Theorem gesvd_values
    (build : DescriptorRequest -> Z * Opaque) (a : XlaOp) (dt r : dtype)
    (m n : Z) (lay : option (list Z)) (full_matrices compute_uv : bool)
    (t : Trace) :
  GetShape a = Some (array_shape dt [m; n] lay) ->
  _real_type dt = inr r ->
  0 <= m -> 0 <= n ->
  exists call s u vt info,
    returns (gesvd build a full_matrices compute_uv) t (s, u, vt, info) call
    /\ s = GetTupleElement call 1
    /\ info = GetTupleElement call 4
    /\ typed_dims_of s = Some (r, [Z.min m n])
    /\ typed_dims_of info = Some (np_int32, [])
    /\ option_map fst (typed_dims_of u) = Some dt
    /\ option_map fst (typed_dims_of vt) = Some dt
    /\ map typed_dims (firstn 5 (result_shapes call))
       = [(dt, [m; n]); (r, [Z.min m n]);
          (dt, if m <? n then [n; n] else [m; m]);
          (dt, if m <? n then [m; m] else [n; n]);
          (np_int32, [])]
    /\ List.length (result_shapes call) = 6%nat
    /\ ~ In (GetTupleElement call 0) [s; u; vt; info]
    /\ ~ In (GetTupleElement call 5) [s; u; vt; info].
Proof.
  intros Ha Hr Hm Hn.
  destruct (gesvd_full build a dt r m n lay full_matrices compute_uv t Ha Hr)
    as (call & Hreturns & ->).
  do 5 eexists. split; [exact Hreturns |].
  assert (0 <= Z.min m n) as Hmin by lia.
  unfold typed_dims_of.
  destruct (m <? n), full_matrices;
    cbn [GetShape nth_error option_map dimensions element_type List.length
         Nat.eqb combine forallb fst snd andb map typed_dims firstn
         result_shapes];
    rewrite ?Z.leb_refl, ?(leb_true 0 m Hm), ?(leb_true 0 n Hn),
      ?(leb_true 0 (Z.min m n) Hmin),
      ?(leb_true (Z.min m n) m (Z.le_min_l m n)),
      ?(leb_true (Z.min m n) n (Z.le_min_r m n));
    cbn [andb option_map typed_dims fst element_type];
    repeat split;
    intros [E | [E | [E | [E | []]]]]; discriminate E.
Qed.

Lemma gesvd_values_witness :
  exists call s u vt info,
    returns (gesvd sample_build (sample_operand np_complex64 [5; 3])
               false false) [] (s, u, vt, info) call
    /\ typed_dims_of s = Some (np_float32, [3])
    /\ typed_dims_of info = Some (np_int32, []).
Proof.
  destruct (gesvd_values sample_build (sample_operand np_complex64 [5; 3])
              np_complex64 np_float32 5 3 None false false []
              eq_refl eq_refl)
    as (call & s & u & vt & info & Hreturns & _ & _ & Hs & Hinfo & _);
    [lia | lia |].
  exists call, s, u, vt, info. repeat split; assumption.
Defined.

(** ** Which operands are accepted *)

Lemma raises_not_accepts {A} (c : M A) (t t' : Trace) (e : Exception) :
  c t = (inl e, t') -> ~ accepts c t.
Proof. intros H (r & t'' & Hrun). rewrite H in Hrun. discriminate Hrun. Qed.

Section Acceptance.

Variable build : DescriptorRequest -> Z * Opaque.

Lemma getrf_accepts_iff a s t :
  GetShape a = Some s ->
  accepts (getrf build a) t <-> (2 <= List.length (dimensions s))%nat.
Proof.
  intros H. split.
  - intros Hacc.
    destruct (Nat.le_gt_cases 2 (List.length (dimensions s))) as [| Hlt];
      [assumption |].
    exfalso.
    exact (raises_not_accepts _ _ _ _ (getrf_rank_fails build a s t H Hlt)
             Hacc).
  - intros Hlen. destruct s as [dt dims lay]. cbn [dimensions] in Hlen.
    destruct (dims_split2 dims Hlen) as (bd & m & n & ->).
    destruct (getrf_emits build a dt bd m n lay t H)
      as (lwork & opaque & wdt & Hemits).
    exact (emits_accepts _ _ _ Hemits).
Qed.

Lemma geqrf_accepts_iff a s t :
  GetShape a = Some s ->
  accepts (geqrf build a) t <-> (2 <= List.length (dimensions s))%nat.
Proof.
  intros H. split.
  - intros Hacc.
    destruct (Nat.le_gt_cases 2 (List.length (dimensions s))) as [| Hlt];
      [assumption |].
    exfalso.
    exact (raises_not_accepts _ _ _ _ (geqrf_rank_fails build a s t H Hlt)
             Hacc).
  - intros Hlen. destruct s as [dt dims lay]. cbn [dimensions] in Hlen.
    destruct (dims_split2 dims Hlen) as (bd & m & n & ->).
    destruct (geqrf_emits build a dt bd m n lay t H)
      as (lwork & opaque & Hemits).
    exact (emits_accepts _ _ _ Hemits).
Qed.

Lemma syevd_accepts_iff a s lower t :
  GetShape a = Some s ->
  accepts (syevd build a lower) t
  <-> (exists bd n, dimensions s = (bd ++ [n; n])%list)
      /\ (exists r, _real_type (element_type s) = inr r).
Proof.
  intros H. split.
  - intros Hacc.
    destruct (Nat.le_gt_cases 2 (List.length (dimensions s))) as [Hlen | Hlt].
    + destruct s as [dt dims lay]. cbn [dimensions element_type] in *.
      destruct (dims_split2 dims Hlen) as (bd & m & n & ->).
      destruct (Z.eq_dec m n) as [-> | Hne].
      * split; [exists bd, n; reflexivity |].
        destruct (_real_type dt) as [e | r] eqn:Hr; [| exists r; reflexivity].
        exfalso.
        exact (raises_not_accepts _ _ _ _
                 (syevd_unsupported build a dt e bd n lay lower t H Hr) Hacc).
      * exfalso.
        exact (raises_not_accepts _ _ _ _
                 (syevd_nonsquare_fails build a dt bd m n lay lower t H Hne)
                 Hacc).
    + exfalso.
      exact (raises_not_accepts _ _ _ _
               (syevd_rank_fails build a s lower t H Hlt) Hacc).
  - intros [(bd & n & Hd) (r & Hr)].
    destruct s as [dt dims lay]. cbn [dimensions element_type] in *. subst.
    destruct (syevd_emits build a dt r bd n lay lower t H Hr)
      as (lwork & opaque & Hemits).
    exact (emits_accepts _ _ _ Hemits).
Qed.

Lemma gesvd_accepts_iff a s full_matrices compute_uv t :
  GetShape a = Some s ->
  accepts (gesvd build a full_matrices compute_uv) t
  <-> List.length (dimensions s) = 2%nat
      /\ (exists r, _real_type (element_type s) = inr r).
Proof.
  intros H. split.
  - intros Hacc.
    destruct (Nat.eq_dec (List.length (dimensions s)) 2) as [Hlen | Hne].
    + split; [assumption |].
      destruct s as [dt dims lay]. cbn [dimensions element_type] in *.
      destruct dims as [| m [| n [| z l]]]; try discriminate Hlen.
      destruct (_real_type dt) as [e | r] eqn:Hr; [| exists r; reflexivity].
      exfalso.
      exact (raises_not_accepts _ _ _ _
               (gesvd_unsupported build a dt e m n lay full_matrices
                  compute_uv t H Hr) Hacc).
    + exfalso.
      destruct (gesvd_rank_fails build a s full_matrices compute_uv t H Hne)
        as (msg & Hfail).
      exact (raises_not_accepts _ _ _ _ Hfail Hacc).
  - intros [Hlen (r & Hr)].
    destruct s as [dt dims lay]. cbn [dimensions element_type] in *.
    destruct dims as [| m [| n [| z l]]]; try discriminate Hlen.
    destruct (gesvd_emits build a dt r m n lay full_matrices compute_uv t
                H Hr) as (lwork & opaque & Hemits).
    exact (emits_accepts _ _ _ Hemits).
Qed.

Lemma trsm_accepts_iff a b sa sb
    (left_side lower trans_a conj_a diag : bool) t :
  GetShape b = Some sb ->
  GetShape a = Some sa ->
  accepts (trsm build a b left_side lower trans_a conj_a diag) t
  <-> (exists bd m n,
          dimensions sb = (bd ++ [m; n])%list
          /\ dimensions sa = (bd ++ [if left_side then m else n;
                                     if left_side then m else n])%list)
      /\ element_type sa = element_type sb
      /\ ~ (conj_a = true /\ trans_a = false).
Proof.
  intros Hb Ha. split.
  - intros Hacc.
    destruct (Nat.le_gt_cases 2 (List.length (dimensions sb)))
      as [Hlen | Hlt];
      [| exfalso;
         exact (raises_not_accepts _ _ _ _
                  (trsm_rank_fails build a b sb left_side lower trans_a
                     conj_a diag t Hb Hlt) Hacc)].
    destruct sb as [dt dims lay]. cbn [dimensions element_type] in *.
    destruct (dims_split2 dims Hlen) as (bd & m & n & ->).
    destruct (negb (Py.tuple_eqb
                      (bd ++ [if left_side then m else n;
                              if left_side then m else n])
                      (dimensions sa))
              || negb (dtype_beq (element_type sa) dt)) eqn:Hc.
    + exfalso.
      exact (raises_not_accepts _ _ _ _
               (trsm_mismatch build a b sa dt bd m n lay left_side lower
                  trans_a conj_a diag t Hb Ha Hc) Hacc).
    + apply orb_false_iff in Hc as [Hd Ht].
      apply negb_false_iff, tuple_eqb_eq in Hd.
      apply negb_false_iff, internal_dtype_dec_bl in Ht.
      split; [exists bd, m, n; split; [reflexivity | congruence] |].
      split; [exact Ht |].
      intros [-> ->]. destruct sa as [dta dimsa laya].
      cbn [dimensions element_type] in *. subst.
      exact (raises_not_accepts _ _ _ _
               (trsm_conj build a b laya dt bd m n lay left_side lower diag
                  t Hb Ha) Hacc).
  - intros ((bd & m & n & Hdb & Hda) & Hty & Hflags).
    destruct sa as [dta dimsa laya], sb as [dt dims lay].
    cbn [dimensions element_type] in *. subst.
    destruct (trsm_emits build a b laya dt bd m n lay left_side lower
                trans_a conj_a diag t Hb Ha) as (lwork & opaque & Hemits).
    + destruct conj_a, trans_a; try reflexivity. exfalso. auto.
    + exact (emits_accepts _ _ _ Hemits).
Qed.

Lemma orgqr_accepts_iff a tau sa stau t :
  GetShape a = Some sa ->
  GetShape tau = Some stau ->
  accepts (orgqr build a tau) t
  <-> exists bd m n k,
        dimensions sa = (bd ++ [m; n])%list
        /\ dimensions stau = (bd ++ [k])%list.
Proof.
  intros Ha Htau. split.
  - intros Hacc.
    destruct (Nat.le_gt_cases 2 (List.length (dimensions sa)))
      as [Hlen | Hlt];
      [| exfalso;
         exact (raises_not_accepts _ _ _ _
                  (orgqr_rank_fails build a tau sa t Ha Hlt) Hacc)].
    destruct sa as [dt dims lay]. cbn [dimensions] in *.
    destruct (dims_split2 dims Hlen) as (bd & m & n & ->).
    destruct (list_eq_dec Z.eq_dec (Py.slice_to (dimensions stau) (-1)) bd)
      as [Heq | Hne];
      [| exfalso;
         exact (raises_not_accepts _ _ _ _
                  (orgqr_assertion build a tau stau dt bd m n lay t Ha Htau
                     Hne) Hacc)].
    destruct stau as [tau_dt tau_dims tau_lay]. cbn [dimensions] in *.
    destruct tau_dims as [| x l].
    + exfalso. cbn in Heq. subst bd.
      exact (raises_not_accepts _ _ _ _
               (orgqr_scalar_tau_fails build a tau dt tau_dt m n lay tau_lay
                  t Ha Htau) Hacc).
    + destruct (exists_last (l := x :: l)) as (bd' & k & Hl);
        [discriminate |].
      rewrite Hl in Heq. rewrite slice_to_last1 in Heq. subst bd'.
      exists bd, m, n, k. split; [reflexivity | exact Hl].
  - intros (bd & m & n & k & Hda & Hdt).
    destruct sa as [dt dims lay], stau as [tau_dt tau_dims tau_lay].
    cbn [dimensions] in *. subst.
    destruct (orgqr_emits build a tau dt tau_dt bd m n k lay tau_lay t
                Ha Htau) as (lwork & opaque & Hemits).
    exact (emits_accepts _ _ _ Hemits).
Qed.

End Acceptance.

(** X15: the operands each wrapper accepts, given that they have array
    shapes.  [getrf] and [geqrf] return exactly on rank at least two, of
    any element type; [syevd] exactly on rank at least two with equal
    trailing dimensions and an element type that [_real_type] handles;
    [gesvd] exactly on rank two with such an element type; [trsm] exactly
    when [b] has rank at least two, [a] has the batch dimensions of [b]
    followed by [(k, k)] and the element type of [b], and conjugation is
    not asked without transposition; [orgqr] exactly when [a] has rank at
    least two and the dimensions of [tau] are the batch dimensions of [a]
    followed by one more. *)
Theorem accepted_operands
    (build : DescriptorRequest -> Z * Opaque) (t : Trace) :
  (forall a s,
      GetShape a = Some s ->
      accepts (getrf build a) t <-> (2 <= List.length (dimensions s))%nat)
  /\ (forall a s,
         GetShape a = Some s ->
         accepts (geqrf build a) t
         <-> (2 <= List.length (dimensions s))%nat)
  /\ (forall a s lower,
         GetShape a = Some s ->
         accepts (syevd build a lower) t
         <-> (exists bd n, dimensions s = (bd ++ [n; n])%list)
             /\ (exists r, _real_type (element_type s) = inr r))
  /\ (forall a s full_matrices compute_uv,
         GetShape a = Some s ->
         accepts (gesvd build a full_matrices compute_uv) t
         <-> List.length (dimensions s) = 2%nat
             /\ (exists r, _real_type (element_type s) = inr r))
  /\ (forall a b sa sb (left_side lower trans_a conj_a diag : bool),
         GetShape b = Some sb ->
         GetShape a = Some sa ->
         accepts (trsm build a b left_side lower trans_a conj_a diag) t
         <-> (exists bd m n,
                 dimensions sb = (bd ++ [m; n])%list
                 /\ dimensions sa
                    = (bd ++ [if left_side then m else n;
                              if left_side then m else n])%list)
             /\ element_type sa = element_type sb
             /\ ~ (conj_a = true /\ trans_a = false))
  /\ (forall a tau sa stau,
         GetShape a = Some sa ->
         GetShape tau = Some stau ->
         accepts (orgqr build a tau) t
         <-> exists bd m n k,
               dimensions sa = (bd ++ [m; n])%list
               /\ dimensions stau = (bd ++ [k])%list).
Proof.
  split; [intros; apply getrf_accepts_iff; assumption |].
  split; [intros; apply geqrf_accepts_iff; assumption |].
  split; [intros; apply syevd_accepts_iff; assumption |].
  split; [intros; apply gesvd_accepts_iff; assumption |].
  split; [intros; apply trsm_accepts_iff; assumption |].
  intros; apply orgqr_accepts_iff; assumption.
Qed.

Lemma accepted_operands_witness :
  accepts (getrf sample_build (sample_operand np_int32 [2; 3])) []
  /\ ~ accepts (syevd sample_build (sample_operand np_int32 [3; 3]) false) []
  /\ ~ accepts (orgqr sample_build (sample_operand np_float32 [4; 3])
                  (sample_operand np_float32 [2; 3])) [].
Proof.
  destruct (accepted_operands sample_build [])
    as (Hgetrf & _ & Hsyevd & _ & _ & Horgqr).
  split; [| split].
  - apply (Hgetrf (sample_operand np_int32 [2; 3])
             (array_shape np_int32 [2; 3] None) eq_refl).
    simpl. lia.
  - intros Hacc.
    apply (Hsyevd (sample_operand np_int32 [3; 3])
             (array_shape np_int32 [3; 3] None) false eq_refl) in Hacc.
    destruct Hacc as (_ & r & Hr). discriminate Hr.
  - intros Hacc.
    apply (Horgqr (sample_operand np_float32 [4; 3])
             (sample_operand np_float32 [2; 3])
             (array_shape np_float32 [4; 3] None)
             (array_shape np_float32 [2; 3] None) eq_refl eq_refl) in Hacc.
    destruct Hacc as (bd & m & n & k & Ha & Htau). cbn [dimensions] in *.
    destruct bd as [| x [| y bd]]; try discriminate Ha.
    + discriminate Htau.
    + destruct bd; discriminate Ha.
Defined.

(** ** The batch count *)

Lemma fold_mul_acc (xs : list Z) (acc : Z) :
  fold_left Z.mul xs acc = acc * fold_left Z.mul xs 1.
Proof.
  revert acc. induction xs as [| x xs IH]; intros acc; cbn [fold_left].
  - lia.
  - rewrite IH, (IH (1 * x)). lia.
Qed.

Lemma prod_cons (x : Z) (xs : list Z) : _prod (x :: xs) = x * _prod xs.
Proof.
  unfold _prod. cbn [fold_left]. rewrite fold_mul_acc. lia.
Qed.

Lemma prod_app (xs ys : list Z) : _prod (xs ++ ys) = _prod xs * _prod ys.
Proof.
  induction xs as [| x xs IH]; cbn [app].
  - unfold _prod at 2. cbn [fold_left]. lia.
  - rewrite !prod_cons, IH. lia.
Qed.

Lemma prod_zero (xs : list Z) : In 0 xs -> _prod xs = 0.
Proof.
  induction xs as [| x xs IH]; intros Hin; [contradiction |].
  rewrite prod_cons. destruct Hin as [-> | Hin]; [lia |].
  rewrite (IH Hin). lia.
Qed.

Lemma prod_positive (xs : list Z) :
  Forall (fun x => 0 < x) xs -> 0 < _prod xs.
Proof.
  induction 1 as [| x xs Hx _ IH]; [reflexivity |].
  rewrite prod_cons. lia.
Qed.

Lemma prod_ones (xs : list Z) : Forall (fun x => x = 1) xs -> _prod xs = 1.
Proof.
  induction 1 as [| x xs Hx _ IH]; [reflexivity |].
  rewrite prod_cons, Hx, IH. reflexivity.
Qed.

(** X16: the batch count [_prod] of no dimensions is 1; the count of a
    concatenation is the product of the counts; it is 0 as soon as one
    dimension is 0, and positive when every dimension is. *)
Theorem prod_batch_count :
  _prod [] = 1
  /\ (forall xs ys, _prod (xs ++ ys) = _prod xs * _prod ys)
  /\ (forall xs, In 0 xs -> _prod xs = 0)
  /\ (forall xs, Forall (fun x => 0 < x) xs -> 0 < _prod xs).
Proof.
  split; [reflexivity |].
  split; [exact prod_app |].
  split; [exact prod_zero | exact prod_positive].
Qed.

Lemma prod_batch_count_witness :
  _prod [2; 0; 5] = 0 /\ 0 < _prod [2; 3; 4].
Proof.
  destruct prod_batch_count as (_ & _ & Hzero & Hpos).
  split.
  - apply Hzero. simpl. auto.
  - apply Hpos. repeat constructor.
Defined.

(** ** The threshold of [getrf] *)

Lemma floor_bound (m b : Z) : 0 < b -> m / b <= 128 <-> m < 129 * b.
Proof.
  intros Hb.
  pose proof (Z.div_mod m b ltac:(lia)) as Hdm.
  pose proof (Z.mod_pos_bound m b Hb) as Hmod.
  split; intros; nia.
Qed.

(** X17: the batched LU kernel is chosen exactly for more than one square
    matrix of side below 129 times the batch count: the test
    [m // batch <= 128] of the source is [m < 129 * batch]. *)
Theorem getrf_batched_bound
    (build : DescriptorRequest -> Z * Opaque) (a : XlaOp) (dt : dtype)
    (bd : list Z) (m n : Z) (lay : option (list Z)) (t : Trace) :
  GetShape a = Some (array_shape dt (bd ++ [m; n]) lay) ->
  exists call,
    emits (getrf build a) t call
    /\ (target_of call = Some "cublas_getrf_batched"
        <-> 1 < _prod bd /\ m = n /\ m < 129 * _prod bd).
Proof.
  intros H.
  destruct (getrf_emits build a dt bd m n lay t H)
    as (lwork & opaque & wdt & Hemits).
  eexists. split; [exact Hemits |]. cbn [target_of].
  destruct (getrf_kernel_cases bd m n) as [(H1 & H2 & H3 & ->) | (Hn & ->)].
  - split; [intros _ | reflexivity].
    repeat split; try assumption. apply floor_bound; lia.
  - split; [discriminate |].
    intros (H1 & H2 & H3). exfalso. apply Hn.
    repeat split; try assumption. apply floor_bound; lia.
Qed.

Lemma getrf_batched_bound_witness :
  exists call,
    emits (getrf sample_build (sample_operand np_float32 [2; 257; 257])) []
      call
    /\ target_of call = Some "cublas_getrf_batched".
Proof.
  destruct (getrf_batched_bound sample_build
              (sample_operand np_float32 [2; 257; 257]) np_float32 [2]
              257 257 None [] eq_refl) as (call & Hemits & Hiff).
  exists call. split; [exact Hemits |].
  apply Hiff. repeat split; reflexivity.
Defined.

(** X18: a single matrix (no batch dimensions), a batch whose dimensions
    are all 1, and an empty batch (some batch dimension 0) all go to the
    general kernel "cusolver_getrf", with the descriptor requested from
    [build_getrf_descriptor]. *)
Theorem getrf_small_batch
    (build : DescriptorRequest -> Z * Opaque) (a : XlaOp) (dt : dtype)
    (bd : list Z) (m n : Z) (lay : option (list Z)) (t : Trace) :
  GetShape a = Some (array_shape dt (bd ++ [m; n]) lay) ->
  bd = [] \/ Forall (fun x => x = 1) bd \/ In 0 bd ->
  exists call,
    emits (getrf build a) t call
    /\ target_of call = Some "cusolver_getrf"
    /\ consults (getrf build a) t (build_getrf_descriptor dt (_prod bd) m n).
Proof.
  intros H Hbd.
  assert (_prod bd <= 1) as Hle.
  { destruct Hbd as [-> | [Hones | Hzero]].
    - cbv. discriminate.
    - rewrite (prod_ones bd Hones). lia.
    - rewrite (prod_zero bd Hzero). lia. }
  destruct (getrf_emits build a dt bd m n lay t H)
    as (lwork & opaque & wdt & Hemits).
  pose proof (getrf_consults build a dt bd m n lay t H) as Hconsults.
  unfold getrf_kernel in Hemits.
  destruct (Z.ltb_spec 1 (_prod bd)) as [Hlt | _]; [lia |].
  cbn [andb] in Hemits, Hconsults.
  eexists. split; [exact Hemits |]. split; [reflexivity | exact Hconsults].
Qed.

Lemma getrf_small_batch_witness :
  exists call,
    emits (getrf sample_build (sample_operand np_float32 [0; 8; 8])) [] call
    /\ target_of call = Some "cusolver_getrf".
Proof.
  destruct (getrf_small_batch sample_build
              (sample_operand np_float32 [0; 8; 8]) np_float32 [0] 8 8 None
              [] eq_refl) as (call & Hemits & Htarget & _).
  - right. right. simpl. auto.
  - exists call. split; assumption.
Defined.
